(** * Gesture-Based-Mouse-Control: the per-frame gesture resolvers

    A shallow embedding of [gesture_control_app.py] (class
    [GestureControlApp]) and the properties of its gesture classification,
    click debounce and drag (text selection) logic.

    Modelling conventions.
    - Landmark coordinates and clock readings are Python floats (binary64);
      they are modelled as rationals [Q], every finite float being one.
      Comparisons are exact.  A sum of two coordinates, its half, and the
      sum of a scaled coordinate and the 30-pixel offset are rounded as
      binary64 rounds them ([binary64]: to nearest, ties to even).  The
      products of a coordinate by a screen dimension and the difference of
      two clock readings are taken exactly: they are exact in binary64 on
      the values the program receives (the detector's coordinates are
      float32 numbers; two readings of the clock are within a factor of
      two of each other).
    - [pyautogui] calls are recorded, in program order, in a trace of
      [Action]s returned next to the new object state.
    - [time.time()] is an input ([now]) of the function that reads it.
    - The [image] argument and all drawing calls are left out: no decision
      reads them. *)

From Stdlib Require Import ZArith QArith Qround Qabs Qpower Bool List String.
From Stdlib Require Import Sorted Lia Lqa.
Import ListNotations.
Open Scope Q_scope.

(** ** Numbers *)

(** Python's [a < b] on floats. *)
Definition Qltb (a b : Q) : bool :=
  match a ?= b with Lt => true | _ => false end.

(** Python's [int(f)]: truncation toward zero. *)
Definition int_of (q : Q) : Z := Z.quot (Qnum q) (Zpos (Qden q)).

(** *** Rounding to binary64

    The value a binary64 operation returns is the exact result rounded to
    the nearest number with a 53-bit significand (an integer multiple of
    [2^e], [e] being 52 below the position of the leading bit and at least
    -1074, where the subnormal numbers start), a tie going to the even
    significand.  Results beyond the largest float (overflow to infinity)
    are not modelled. *)

Definition pow2 (k : Z) : Q := 2 ^ k.

(** Position of the leading bit of a number other than zero: the [k] with
    [2^k <= |q| < 2^(k+1)]. *)
Definition ilog2 (q : Q) : Z :=
  let k := (Z.log2 (Z.abs (Qnum q)) - Z.log2 (Zpos (Qden q)))%Z in
  if Qle_bool (pow2 k) (Qabs q) then k else (k - 1)%Z.

(** Nearest integer, a tie going to the even one. *)
Definition round_half_even (q : Q) : Z :=
  let f := Qfloor q in
  match Qcompare (q - inject_Z f) (1 # 2) with
  | Lt => f
  | Gt => (f + 1)%Z
  | Eq => if Z.even f then f else (f + 1)%Z
  end.

Definition binary64 (q : Q) : Q :=
  if Qeq_bool q 0 then 0
  else
    let e := Z.max (ilog2 q - 52) (-1074) in
    inject_Z (round_half_even (q / pow2 e)) * pow2 e.

(** Python's [(a + b) / 2] on two floats: the sum is rounded, then its
    half. *)
Definition average64 (a b : Q) : Q := binary64 (binary64 (a + b) / 2).

(** ** Landmarks and hands *)

Record Landmark := mkLandmark { x : Q; y : Q; z : Q }.

(** [mp.solutions.hands.HandLandmark]: the 21 keypoints of a hand. *)
Inductive HandLandmark :=
| WRIST
| THUMB_CMC | THUMB_MCP | THUMB_IP | THUMB_TIP
| INDEX_FINGER_MCP | INDEX_FINGER_PIP | INDEX_FINGER_DIP | INDEX_FINGER_TIP
| MIDDLE_FINGER_MCP | MIDDLE_FINGER_PIP | MIDDLE_FINGER_DIP | MIDDLE_FINGER_TIP
| RING_FINGER_MCP | RING_FINGER_PIP | RING_FINGER_DIP | RING_FINGER_TIP
| PINKY_MCP | PINKY_PIP | PINKY_DIP | PINKY_TIP.

(** [hand_landmarks.landmark[...]]: one landmark per keypoint. *)
Definition Hand := HandLandmark -> Landmark.

(** ** Commands sent to pyautogui *)

Inductive Button := LeftButton | RightButton.

Inductive Action :=
| MoveToEased (px py : Z)   (* moveTo(x, y, duration=0.1, tween=easeOutQuad) *)
| MoveTo (px py : Z)        (* moveTo(x, y) *)
| Scroll (clicks : Z)       (* scroll(clicks) *)
| HScroll (clicks : Z)      (* hscroll(clicks) *)
| Click (b : Button)        (* click() / click(button="right") *)
| MouseDown                 (* mouseDown() *)
| MouseUp                   (* mouseUp() *)
| KeyDown (k : string)      (* keyDown(k) *)
| Press (k : string)        (* press(k) *)
| KeyUp (k : string).       (* keyUp(k) *)

Definition is_click (a : Action) : bool :=
  match a with Click _ => true | _ => false end.

Definition is_left_click (a : Action) : bool :=
  match a with Click LeftButton => true | _ => false end.

Definition is_right_click (a : Action) : bool :=
  match a with Click RightButton => true | _ => false end.

Definition is_mouse_up (a : Action) : bool :=
  match a with MouseUp => true | _ => false end.

Definition is_mouse_down (a : Action) : bool :=
  match a with MouseDown => true | _ => false end.

(** Number of commands of a trace that satisfy [p]. *)
Definition count (p : Action -> bool) (tr : list Action) : nat :=
  List.length (filter p tr).

(** ** The object state *)

(** The attributes [extract_landmarks] stores on [self].  The pinch distance
    is [(dx**2 + dy**2)**0.5]; the rationals have no square root, so the
    attribute kept here is its square, [distance_sq], and the only test the
    program makes on it, [distance < 0.05], is made on the squares (see
    [pinch]). *)
Record HandAttrs := mkHandAttrs {
  thumb_tip : Landmark;  thumb_ip : Landmark;
  index_tip : Landmark;  index_pip : Landmark;
  middle_tip : Landmark; middle_pip : Landmark;
  ring_tip : Landmark;   ring_pip : Landmark;
  little_tip : Landmark; little_pip : Landmark;
  thumb_extended : bool;
  index_extended : bool;
  middle_extended : bool;
  ring_extended : bool;
  little_extended : bool;
  thumb_tip_x : Q; thumb_tip_y : Q;
  middle_tip_x : Q; middle_tip_y : Q;
  distance_sq : Q
}.

(** The attributes of a [GestureControlApp].  [attrs] is [None] until
    [extract_landmarks] has run once. *)
Record App := mkApp {
  running : bool;
  paused : bool;
  last_click_time : Q;
  screen_width : Z;
  screen_height : Z;
  status_message : string;
  mode_message : string;
  selection_active : bool;
  selection_start : option (Z * Z);
  attrs : option HandAttrs
}.

(** [self.SCROLL_SPEED] and [self.CLICK_COOLDOWN]: assigned once in
    [__init__] and never again. *)
Definition SCROLL_SPEED : Z := 50.
Definition CLICK_COOLDOWN : Q := 5 # 10.

Definition set_running (self : App) (b : bool) : App :=
  mkApp b (paused self) (last_click_time self) (screen_width self)
        (screen_height self) (status_message self) (mode_message self)
        (selection_active self) (selection_start self) (attrs self).

Definition set_paused (self : App) (b : bool) : App :=
  mkApp (running self) b (last_click_time self) (screen_width self)
        (screen_height self) (status_message self) (mode_message self)
        (selection_active self) (selection_start self) (attrs self).

Definition set_last_click_time (self : App) (t : Q) : App :=
  mkApp (running self) (paused self) t (screen_width self)
        (screen_height self) (status_message self) (mode_message self)
        (selection_active self) (selection_start self) (attrs self).

Definition set_status_message (self : App) (m : string) : App :=
  mkApp (running self) (paused self) (last_click_time self) (screen_width self)
        (screen_height self) m (mode_message self)
        (selection_active self) (selection_start self) (attrs self).

Definition set_mode_message (self : App) (m : string) : App :=
  mkApp (running self) (paused self) (last_click_time self) (screen_width self)
        (screen_height self) (status_message self) m
        (selection_active self) (selection_start self) (attrs self).

Definition set_selection_active (self : App) (b : bool) : App :=
  mkApp (running self) (paused self) (last_click_time self) (screen_width self)
        (screen_height self) (status_message self) (mode_message self)
        b (selection_start self) (attrs self).

Definition set_attrs (self : App) (a : HandAttrs) : App :=
  mkApp (running self) (paused self) (last_click_time self) (screen_width self)
        (screen_height self) (status_message self) (mode_message self)
        (selection_active self) (selection_start self) (Some a).

(** [__init__]: [t0] is the reading of [time.time()], [(w, h)] the result
    of [pyautogui.size()]. *)
Definition init (t0 : Q) (w h : Z) : App :=
  mkApp false false t0 w h "Gesture Control Ready" "No hands detected"
        false None None.

(** ** Finger-state classifier *)

(** A finger is extended when its tip is above its joint: [tip.y < joint.y]. *)
Definition extended (tip_y joint_y : Q) : bool := Qltb tip_y joint_y.

(** The values [extract_landmarks] computes from the landmarks of a hand. *)
Definition hand_attrs (hand_landmarks : Hand) : HandAttrs :=
  let thumb_tip := hand_landmarks THUMB_TIP in
  let thumb_ip := hand_landmarks THUMB_IP in
  let index_tip := hand_landmarks INDEX_FINGER_TIP in
  let index_pip := hand_landmarks INDEX_FINGER_PIP in
  let middle_tip := hand_landmarks MIDDLE_FINGER_TIP in
  let middle_pip := hand_landmarks MIDDLE_FINGER_PIP in
  let ring_tip := hand_landmarks RING_FINGER_TIP in
  let ring_pip := hand_landmarks RING_FINGER_PIP in
  let little_tip := hand_landmarks PINKY_TIP in
  let little_pip := hand_landmarks PINKY_PIP in
  let thumb_tip_x := x thumb_tip in
  let thumb_tip_y := y thumb_tip in
  let middle_tip_x := x middle_tip in
  let middle_tip_y := y middle_tip in
  mkHandAttrs thumb_tip thumb_ip index_tip index_pip middle_tip middle_pip
    ring_tip ring_pip little_tip little_pip
    (extended (y thumb_tip) (y thumb_ip))
    (extended (y index_tip) (y index_pip))
    (extended (y middle_tip) (y middle_pip))
    (extended (y ring_tip) (y ring_pip))
    (extended (y little_tip) (y little_pip))
    thumb_tip_x thumb_tip_y middle_tip_x middle_tip_y
    ((thumb_tip_x - middle_tip_x) ^ 2 + (thumb_tip_y - middle_tip_y) ^ 2).

(** [extract_landmarks]: stores them on [self]. *)
Definition extract_landmarks (self : App) (hand_landmarks : Hand) : App :=
  set_attrs self (hand_attrs hand_landmarks).

(** [self.distance < 0.05].  Both sides are non-negative, so the test on the
    square roots is the test on the squares: [distance_sq < 0.05 ** 2]. *)
Definition pinch (a : HandAttrs) : bool :=
  Qltb (distance_sq a) ((5 # 100) ^ 2).

(** ** Single-hand resolver *)

(** The first four conditions of the [if]/[elif] chain. *)
Definition only_index (a : HandAttrs) : bool :=
  index_extended a
  && negb (middle_extended a || ring_extended a || little_extended a).

Definition index_and_middle (a : HandAttrs) : bool :=
  index_extended a && middle_extended a
  && negb (ring_extended a || little_extended a).

Definition index_and_little (a : HandAttrs) : bool :=
  index_extended a && little_extended a
  && negb (middle_extended a || ring_extended a).

Definition all_extended (a : HandAttrs) : bool :=
  forallb (fun b : bool => b)
    [thumb_extended a; index_extended a; middle_extended a;
     ring_extended a; little_extended a].

(** [current_time - self.last_click_time >= self.CLICK_COOLDOWN]. *)
Definition cooled_down (self : App) (current_time : Q) : bool :=
  Qle_bool CLICK_COOLDOWN (current_time - last_click_time self).

(** [process_single_hand].  Its [hand_landmarks] and [image] arguments are
    never read: the branches test the attributes stored on [self].  Reading
    them before [extract_landmarks] has set them raises [AttributeError]
    ([None]).  [now] is what [time.time()] returns if a click branch reads
    it. *)
Definition process_single_hand (self : App) (now : Q)
  : option (App * list Action) :=
  match attrs self with
  | None => None
  | Some a =>
    Some (
      if only_index a then
        let cursor_x := int_of (x (index_tip a) * inject_Z (screen_width self)) in
        let cursor_y :=
          int_of
            (binary64 (y (index_tip a) * inject_Z (screen_height self) + 30)) in
        (set_status_message self "Mouse Control",
         [MoveToEased cursor_x cursor_y])
      else if index_and_middle a then
        let hand_y := average64 (y (index_tip a)) (y (middle_tip a)) in
        if Qltb (5 # 10) hand_y then
          (set_status_message self "Scrolling Down", [Scroll (- SCROLL_SPEED)])
        else
          (set_status_message self "Scrolling Up", [Scroll SCROLL_SPEED])
      else if index_and_little a then
        let hand_x := average64 (x (index_tip a)) (x (little_tip a)) in
        if Qltb (5 # 10) hand_x then
          (set_status_message self "Scrolling Right", [HScroll SCROLL_SPEED])
        else
          (set_status_message self "Scrolling Left", [HScroll (- SCROLL_SPEED)])
      else if all_extended a then
        let current_time := now in
        if cooled_down self current_time then
          (set_status_message (set_last_click_time self current_time)
             "Left Click",
           [Click LeftButton])
        else (self, [])
      else if pinch a then
        let current_time := now in
        if cooled_down self current_time then
          (set_status_message (set_last_click_time self current_time)
             "Right Click",
           [Click RightButton])
        else (self, [])
      else (self, []))
  end.

(** ** Two-hand resolver *)

(** [hand1_all_extended]: the five comparisons are written out in the
    source, on the landmarks of the first hand. *)
Definition hand1_all_extended (hand1 : Hand) : bool :=
  forallb (fun b : bool => b)
    [Qltb (y (hand1 THUMB_TIP)) (y (hand1 THUMB_IP));
     Qltb (y (hand1 INDEX_FINGER_TIP)) (y (hand1 INDEX_FINGER_PIP));
     Qltb (y (hand1 MIDDLE_FINGER_TIP)) (y (hand1 MIDDLE_FINGER_PIP));
     Qltb (y (hand1 RING_FINGER_TIP)) (y (hand1 RING_FINGER_PIP));
     Qltb (y (hand1 PINKY_TIP)) (y (hand1 PINKY_PIP))].

(** [hand2_index_only]: index tip above its joint, the middle, ring and
    little tips strictly below theirs ([tip.y > pip.y]). *)
Definition hand2_index_only (hand2 : Hand) : bool :=
  Qltb (y (hand2 INDEX_FINGER_TIP)) (y (hand2 INDEX_FINGER_PIP))
  && Qltb (y (hand2 MIDDLE_FINGER_PIP)) (y (hand2 MIDDLE_FINGER_TIP))
  && Qltb (y (hand2 RING_FINGER_PIP)) (y (hand2 RING_FINGER_TIP))
  && Qltb (y (hand2 PINKY_PIP)) (y (hand2 PINKY_TIP)).

(** [hand2_index_middle]: the peace sign. *)
Definition hand2_index_middle (hand2 : Hand) : bool :=
  Qltb (y (hand2 INDEX_FINGER_TIP)) (y (hand2 INDEX_FINGER_PIP))
  && Qltb (y (hand2 MIDDLE_FINGER_TIP)) (y (hand2 MIDDLE_FINGER_PIP))
  && Qltb (y (hand2 RING_FINGER_PIP)) (y (hand2 RING_FINGER_TIP))
  && Qltb (y (hand2 PINKY_PIP)) (y (hand2 PINKY_TIP)).

(** [int(landmark.x * self.screen_width), int(landmark.y * self.screen_height)]. *)
Definition to_screen (self : App) (p : Landmark) : Z * Z :=
  (int_of (x p * inject_Z (screen_width self)),
   int_of (y p * inject_Z (screen_height self))).

Definition zoom_in : list Action := [KeyDown "ctrl"; Press "+"; KeyUp "ctrl"].
Definition zoom_out : list Action := [KeyDown "ctrl"; Press "-"; KeyUp "ctrl"].

(** [process_two_hands].  [multi_hand_landmarks[0]] and [[1]] raise
    [IndexError] ([None]) on a shorter list. *)
Definition process_two_hands (self : App) (multi_hand_landmarks : list Hand)
  : option (App * list Action) :=
  match multi_hand_landmarks with
  | hand1 :: hand2 :: _ =>
    Some (
      if hand1_all_extended hand1 && hand2_index_only hand2 then
        let '(self1, started) :=
          if negb (selection_active self) then
            let '(start_x, start_y) := to_screen self (hand1 INDEX_FINGER_TIP) in
            (set_status_message (set_selection_active self true)
               "Text Selection Started",
             [MoveTo start_x start_y; MouseDown])
          else (self, []) in
        let '(end_x, end_y) := to_screen self1 (hand2 INDEX_FINGER_TIP) in
        (set_status_message self1 "Text Selection Active",
         started ++ [MoveTo end_x end_y])
      else if selection_active self then
        (set_status_message (set_selection_active self false)
           "Text Selection Completed",
         [MouseUp])
      else if hand1_all_extended hand1 && hand2_index_middle hand2 then
        let fingers_y :=
          average64 (y (hand2 INDEX_FINGER_TIP)) (y (hand2 MIDDLE_FINGER_TIP)) in
        if Qltb fingers_y (5 # 10) then
          (set_status_message self "Zoom In", zoom_in)
        else
          (set_status_message self "Zoom Out", zoom_out)
      else (self, []))
  | _ => None
  end.

(** ** The frame loop *)

(** The [for hand_landmarks in results.multi_hand_landmarks] loop of
    [process_frame]: [multi] is the whole list, [rest] what is left to
    iterate over.  The branch is chosen by the length of the whole list,
    inside the loop body. *)
Fixpoint for_each_hand (multi rest : list Hand) (now : Q) (self : App)
  : option (App * list Action) :=
  match rest with
  | [] => Some (self, [])
  | hand_landmarks :: rest' =>
    let self := extract_landmarks self hand_landmarks in
    let body :=
      if Nat.eqb (List.length multi) 1 then
        process_single_hand (set_mode_message self "One hand") now
      else if Nat.eqb (List.length multi) 2 then
        process_two_hands (set_mode_message self "Two hands") multi
      else Some (self, []) in
    match body with
    | None => None
    | Some (self, tr) =>
      match for_each_hand multi rest' now self with
      | None => None
      | Some (self, tr') => Some (self, tr ++ tr')
      end
    end
  end.

(** [process_frame]: [multi_hand_landmarks] is the detector's result for the
    frame, the empty list standing for [None] (no hand). *)
Definition process_frame (self : App) (multi_hand_landmarks : list Hand)
    (now : Q) : option (App * list Action) :=
  let self := set_mode_message self "No hands detected" in
  match multi_hand_landmarks with
  | [] => Some (self, [])
  | _ => for_each_hand multi_hand_landmarks multi_hand_landmarks now self
  end.

(** [toggle_pause] and [exit_app], also the callbacks of the tray menu. *)
Definition toggle_pause (self : App) : App :=
  let self := set_paused self (negb (paused self)) in
  if paused self then set_status_message self "PAUSED - Press P to resume"
  else set_status_message self "Gesture Control Active".

Definition exit_app (self : App) : App := set_running self false.

(** [cleanup]: after the camera, the detector and the windows are
    released (no pyautogui command), the mouse button is released if a
    selection is active. *)
Definition cleanup (self : App) : App * list Action :=
  if selection_active self then (set_selection_active self false, [MouseUp])
  else (self, []).

Inductive TrayItem := ShowWindow | PauseResume | Exit.

Definition tray_callback (self : App) (i : TrayItem) : App :=
  match i with
  | ShowWindow => self
  | PauseResume => toggle_pause self
  | Exit => exit_app self
  end.

(** What one iteration of [main_loop] reads from outside: a tray menu item
    clicked since the last iteration (the tray thread only writes [paused],
    [running] and the status message; its write is placed at the start of
    the iteration), [cam.isOpened()], the key code of [cv2.waitKey(1)], the
    result of [cam.read()] followed by the detector ([None]: the read
    failed), and the clock. *)
Record Tick := mkTick {
  tray : option TrayItem;
  cam_opened : bool;
  key : Z;
  capture : option (list Hand);
  clock : Q
}.

Definition ord_q : Z := 113.
Definition ord_p : Z := 112.

(** [main_loop] over the inputs of its iterations; it stops at [break], when
    the loop condition fails, or when the inputs are used up. *)
Fixpoint main_loop (ticks : list Tick) (self : App)
  : option (App * list Action) :=
  match ticks with
  | [] => Some (self, [])
  | t :: ticks' =>
    let self := match tray t with
                | Some i => tray_callback self i
                | None => self
                end in
    if running self && cam_opened t then
      let key := Z.land (key t) 255 in
      if Z.eqb key ord_q then Some (self, [])
      else
        let self := if Z.eqb key ord_p then toggle_pause self else self in
        if paused self then main_loop ticks' self
        else
          match capture t with
          | None => main_loop ticks' self
          | Some hands =>
            match process_frame self hands (clock t) with
            | None => None
            | Some (self, tr) =>
              match main_loop ticks' self with
              | None => None
              | Some (self, tr') => Some (self, tr ++ tr')
              end
            end
          end
    else Some (self, [])
  end.

(** [start]: [main_loop], then [cleanup] in the [finally] clause. *)
Definition start (self : App) (ticks : list Tick)
  : option (App * list Action) :=
  let self := set_running self true in
  match main_loop ticks self with
  | None => None
  | Some (self, tr) =>
    let '(self, tr') := cleanup self in Some (self, tr ++ tr')
  end.

(** A run of [process_frame] over a list of frames, each with its clock
    reading; the result keeps the commands of each frame apart. *)
Definition Frame : Type := list Hand * Q.

Fixpoint run_frames (self : App) (frames : list Frame)
  : option (App * list (list Action)) :=
  match frames with
  | [] => Some (self, [])
  | (hands, now) :: frames' =>
    match process_frame self hands now with
    | None => None
    | Some (self, tr) =>
      match run_frames self frames' with
      | None => None
      | Some (self, trs) => Some (self, tr :: trs)
      end
    end
  end.

(** ** Sample hands *)

(** A hand whose landmarks all sit at [(cx, cy)], except the finger tips:
    an extended finger has its tip at height [up], a flexed one at [down]. *)
Definition sample_hand (cx cy up down : Q)
    (thumb index middle ring little : bool) : Hand :=
  fun k =>
    let tip (e : bool) := mkLandmark cx (if e then up else down) 0 in
    match k with
    | THUMB_TIP => tip thumb
    | INDEX_FINGER_TIP => tip index
    | MIDDLE_FINGER_TIP => tip middle
    | RING_FINGER_TIP => tip ring
    | PINKY_TIP => tip little
    | _ => mkLandmark cx cy 0
    end.

Definition open_palm : Hand :=
  sample_hand (25 # 100) (5 # 10) (4 # 10) (6 # 10) true true true true true.
Definition pointing : Hand :=
  sample_hand (5 # 10) (6 # 10) (5 # 10) (7 # 10) false true false false false.
Definition peace_sign : Hand :=
  sample_hand (5 # 10) (4 # 10) (3 # 10) (5 # 10) false true true false false.
Definition low_peace_sign : Hand :=
  sample_hand (5 # 10) (8 # 10) (7 # 10) (9 # 10) false true true false false.
Definition mid_peace_sign : Hand :=
  sample_hand (5 # 10) (6 # 10) (5 # 10) (7 # 10) false true true false false.
Definition fist : Hand :=
  sample_hand (5 # 10) (5 # 10) (4 # 10) (6 # 10) false false false false false.

(** ** Vocabulary of the properties *)

(** The pose that starts and continues a selection drag. *)
Definition qualifying_pose (hands : list Hand) : bool :=
  match hands with
  | [hand1; hand2] => hand1_all_extended hand1 && hand2_index_only hand2
  | _ => false
  end.

(** Two [MouseUp] commands with no [MouseDown] between them. *)
Definition double_release (tr : list Action) : Prop :=
  exists l1 l2 l3,
    tr = l1 ++ MouseUp :: l2 ++ MouseUp :: l3 /\ ~ In MouseDown l2.

(** The button discipline as an automaton: [held] says whether the button
    is down; a release is legal only when it is, a press only when not. *)
Fixpoint button_ok (held : bool) (tr : list Action) : bool :=
  match tr with
  | [] => true
  | MouseDown :: tr' => negb held && button_ok true tr'
  | MouseUp :: tr' => held && button_ok false tr'
  | _ :: tr' => button_ok held tr'
  end.

(** State of the button after a trace. *)
Fixpoint button_after (held : bool) (tr : list Action) : bool :=
  match tr with
  | [] => held
  | MouseDown :: tr' => button_after true tr'
  | MouseUp :: tr' => button_after false tr'
  | _ :: tr' => button_after held tr'
  end.

(** A one-hand frame showing the fully open hand. *)
Definition open_hand_frame (f : Frame) : Prop :=
  exists h, fst f = [h] /\ all_extended (hand_attrs h) = true.

(** Clock readings of the frames whose commands contain a left click. *)
Fixpoint left_click_times (frames : list Frame) (trs : list (list Action))
  : list Q :=
  match frames, trs with
  | (_, now) :: frames', tr :: trs' =>
    if existsb is_left_click tr then now :: left_click_times frames' trs'
    else left_click_times frames' trs'
  | _, _ => []
  end.

(** Each frame comes at least the cooldown after the one before it, the
    first at least the cooldown after [t]. *)
Fixpoint spaced_from (t : Q) (frames : list Frame) : Prop :=
  match frames with
  | [] => True
  | (_, now) :: frames' => t + CLICK_COOLDOWN <= now /\ spaced_from now frames'
  end.

(** The first frame does not come before [t]; each later frame comes at
    least the cooldown after the one before it. *)
Definition spaced_after_first (t : Q) (frames : list Frame) : Prop :=
  match frames with
  | [] => True
  | (_, now) :: frames' => t <= now /\ spaced_from now frames'
  end.

(** The ranked rule table of the single-hand resolver, as the
    specification words it: (predicate, action) pairs tried in order, the
    first match winning. *)
Definition Rule : Type :=
  (HandAttrs -> bool) * (App -> HandAttrs -> Q -> App * list Action).

Definition move_rule : Rule :=
  (only_index,
   fun self a _ =>
     (set_status_message self "Mouse Control",
      [MoveToEased
         (int_of (x (index_tip a) * inject_Z (screen_width self)))
         (int_of
            (binary64
               (y (index_tip a) * inject_Z (screen_height self) + 30)))])).

Definition vertical_scroll_rule : Rule :=
  (index_and_middle,
   fun self a _ =>
     if Qltb (5 # 10) (average64 (y (index_tip a)) (y (middle_tip a)))
     then (set_status_message self "Scrolling Down", [Scroll (-50)])
     else (set_status_message self "Scrolling Up", [Scroll 50])).

Definition horizontal_scroll_rule : Rule :=
  (index_and_little,
   fun self a _ =>
     if Qltb (5 # 10) (average64 (x (index_tip a)) (x (little_tip a)))
     then (set_status_message self "Scrolling Right", [HScroll 50])
     else (set_status_message self "Scrolling Left", [HScroll (-50)])).

Definition click_rule (p : HandAttrs -> bool) (b : Button) (m : string)
  : Rule :=
  (p,
   fun self _ now =>
     if cooled_down self now
     then (set_status_message (set_last_click_time self now) m, [Click b])
     else (self, [])).

Definition left_click_rule : Rule :=
  click_rule all_extended LeftButton "Left Click".
Definition right_click_rule : Rule :=
  click_rule pinch RightButton "Right Click".

Definition single_hand_rules : list Rule :=
  [move_rule; vertical_scroll_rule; horizontal_scroll_rule;
   left_click_rule; right_click_rule].

Fixpoint first_match (rules : list Rule) (self : App) (a : HandAttrs)
    (now : Q) : App * list Action :=
  match rules with
  | [] => (self, [])
  | (p, act) :: rules' =>
    if p a then act self a now else first_match rules' self a now
  end.

(** The state in which the resolver of a frame runs for hand [h]. *)
Definition entering (self : App) (h : Hand) (m : string) : App :=
  set_mode_message (extract_landmarks self h) m.

(** What one frame does to the click time: a frame that clicks does so
    at least the cooldown after the last click and records its own clock
    reading; a frame that does not click leaves the click time alone. *)
Definition click_step (now : Q) (self self' : App) (tr : list Action)
  : Prop :=
  (existsb is_click tr = true ->
   last_click_time self + CLICK_COOLDOWN <= now
   /\ last_click_time self' = now)
  /\ (existsb is_click tr = false ->
      last_click_time self' = last_click_time self).

(** What a piece of the program does to the mouse button, [held] being the
    selection flag: every release finds the button down, every press finds
    it up, and the flag follows the button. *)
Definition button_step (self self' : App) (tr : list Action) : Prop :=
  button_ok (selection_active self) tr = true
  /\ button_after (selection_active self) tr = selection_active self'.

(** ** Vocabulary of the further properties *)

Definition is_key (a : Action) : bool :=
  match a with KeyDown _ | Press _ | KeyUp _ => true | _ => false end.

Definition is_scroll (a : Action) : bool :=
  match a with Scroll _ | HScroll _ => true | _ => false end.

Definition is_move (a : Action) : bool :=
  match a with MoveToEased _ _ | MoveTo _ _ => true | _ => false end.

(** The control key as an automaton over a trace, [down] saying whether
    the key is held: [keyDown] and [keyUp] name "ctrl" and alternate, a
    [press] comes only while it is held, every other command only while it
    is not.  The result is the state of the key after the trace, [None] if
    the trace breaks the discipline. *)
Fixpoint ctrl_run (down : bool) (tr : list Action) : option bool :=
  match tr with
  | [] => Some down
  | KeyDown k :: tr' =>
    if String.eqb k "ctrl" && negb down then ctrl_run true tr' else None
  | KeyUp k :: tr' =>
    if String.eqb k "ctrl" && down then ctrl_run false tr' else None
  | Press _ :: tr' => if down then ctrl_run true tr' else None
  | _ :: tr' => if down then None else ctrl_run false tr'
  end.

(** Two object states that agree on the click time, the screen size and
    the selection attributes. *)
Definition same_session (s s' : App) : Prop :=
  last_click_time s' = last_click_time s
  /\ screen_width s' = screen_width s
  /\ screen_height s' = screen_height s
  /\ selection_active s' = selection_active s
  /\ selection_start s' = selection_start s.

(** The inputs of a loop iteration in which nothing happens but a frame:
    no tray item, camera open, no key ([cv2.waitKey] returns -1), the read
    succeeds. *)
Definition frame_tick (f : Frame) : Tick :=
  mkTick None true (-1) (Some (fst f)) (snd f).

(** An iteration that does not toggle the pause: the tray item, if any,
    is not Pause/Resume and the key is not [p]. *)
Definition no_toggle (t : Tick) : bool :=
  match tray t with
  | Some PauseResume => false
  | _ => negb (Z.eqb (Z.land (key t) 255) ord_p)
  end.

(** One of the four finger patterns of the single-hand resolver holds. *)
Definition finger_pattern (a : HandAttrs) : bool :=
  only_index a || index_and_middle a || index_and_little a || all_extended a.

(** The key chord of the zoom branch for a second hand [h2]. *)
Definition zoom_chord (h2 : Hand) : list Action :=
  if Qltb (average64 (y (h2 INDEX_FINGER_TIP)) (y (h2 MIDDLE_FINGER_TIP)))
       (5 # 10)
  then zoom_in else zoom_out.

(** A landmark inside the frame. *)
Definition in_frame (p : Landmark) : Prop :=
  0 <= x p /\ x p <= 1 /\ 0 <= y p /\ y p <= 1.


(** Further sample hands: index and little finger up, to the right of the
    middle of the frame and on it; an index tip on the bottom right corner
    of the frame. *)
Definition horns_right : Hand :=
  sample_hand (6 # 10) (5 # 10) (4 # 10) (6 # 10) false true false false true.
Definition horns_left : Hand :=
  sample_hand (5 # 10) (5 # 10) (4 # 10) (6 # 10) false true false false true.
Definition corner_pointing : Hand :=
  sample_hand 1 (11 # 10) 1 (12 # 10) false true false false false.

(** A pointing hand whose index tip lies off the frame, above and to the
    left of it; a pointing hand whose other four tips are exactly level
    with their joints; an index-and-middle hand whose two tips are
    [0.5] and the next float above, and one whose two tips are [0.5] and
    the next float below. *)
Definition off_frame_pointing : Hand :=
  sample_hand (- (1 # 256)) (1 # 10) (- (1 # 32)) (2 # 10)
    false true false false false.
Definition level_pointing : Hand :=
  sample_hand (5 # 10) (6 # 10) (5 # 10) (6 # 10) false true false false false.
Definition two_tips (index_y middle_y : Q) : Hand :=
  fun k =>
    match k with
    | INDEX_FINGER_TIP => mkLandmark (5 # 10) index_y 0
    | MIDDLE_FINGER_TIP => mkLandmark (5 # 10) middle_y 0
    | THUMB_TIP | RING_FINGER_TIP | PINKY_TIP => mkLandmark (5 # 10) (9 # 10) 0
    | _ => mkLandmark (5 # 10) (8 # 10) 0
    end.
Definition just_above_half : Hand := two_tips (1 # 2) ((1 # 2) + pow2 (-53)).
Definition just_below_half : Hand := two_tips (1 # 2) ((1 # 2) - pow2 (-54)).

(** * Properties *)

(** ** Comparisons and truncation *)

Lemma Qltb_lt (a b : Q) : Qltb a b = true <-> a < b.
Proof.
  unfold Qltb. rewrite Qlt_alt.
  destruct (a ?= b); split; intro H; congruence.
Qed.

Lemma Qltb_ge (a b : Q) : Qltb a b = false <-> b <= a.
Proof.
  split; intro H.
  - apply Qnot_lt_le. intro L. apply Qltb_lt in L. congruence.
  - destruct (Qltb a b) eqn:E; trivial.
    apply Qltb_lt in E. exfalso. exact (Qle_not_lt _ _ H E).
Qed.

Lemma Qltb_asym (a b : Q) : Qltb a b = true -> Qltb b a = false.
Proof.
  intro H. apply Qltb_ge. apply Qlt_le_weak. apply Qltb_lt. exact H.
Qed.

Lemma Qltb_compat (a a' b b' : Q) :
  a == a' -> b == b' -> Qltb a b = Qltb a' b'.
Proof.
  intros Ha Hb. unfold Qltb. now rewrite Ha, Hb.
Qed.

(** On non-negative numbers [int] is the floor. *)
Lemma int_of_floor (q : Q) : 0 <= q -> int_of q = Qfloor q.
Proof.
  destruct q as [n d]. unfold Qle, int_of, Qfloor. simpl.
  intro H. apply Z.quot_div_nonneg; lia.
Qed.

Lemma inject_Z_nonneg (n : Z) : (0 <= n)%Z -> 0 <= inject_Z n.
Proof. intro H. unfold Qle. simpl. lia. Qed.

Lemma int_of_ceiling (q : Q) : q <= 0 -> int_of q = Qceiling q.
Proof.
  intro L. unfold Qceiling.
  assert (N : int_of (- q) = (- int_of q)%Z).
  { destruct q as [n d]. unfold int_of. simpl. apply Z.quot_opp_l. lia. }
  rewrite <- (int_of_floor (- q)) by lra. rewrite N. lia.
Qed.

(** *** Rounding to binary64 *)

Lemma pow2_pos (k : Z) : 0 < pow2 k.
Proof. apply Qpower_0_lt. reflexivity. Qed.

Lemma pow2_plus (a b : Z) : pow2 (a + b) == pow2 a * pow2 b.
Proof. apply Qpower_plus. discriminate. Qed.

Lemma pow2_Z (k : Z) : (0 <= k)%Z -> pow2 k == inject_Z (2 ^ k).
Proof. intro H. unfold pow2. now rewrite Zpower_Qpower. Qed.

Lemma pow2_le (a b : Z) : (a <= b)%Z -> pow2 a <= pow2 b.
Proof.
  intro H. replace b with (a + (b - a))%Z by lia. rewrite pow2_plus.
  rewrite <- (Qmult_1_r (pow2 a)) at 1.
  apply Qmult_le_l; [apply pow2_pos|].
  rewrite pow2_Z by lia. change 1 with (inject_Z 1). rewrite <- Zle_Qle.
  assert (0 < 2 ^ (b - a))%Z by (apply Z.pow_pos_nonneg; lia). lia.
Qed.

Lemma round_half_even_le (q : Q) (n : Z) :
  q <= inject_Z n -> (round_half_even q <= n)%Z.
Proof.
  intro H. unfold round_half_even.
  assert (F := Qfloor_le q).
  assert (L : (Qfloor q <= n)%Z).
  { rewrite <- (Qfloor_Z n). now apply Qfloor_resp_le. }
  assert (S : 0 < q - inject_Z (Qfloor q) -> (Qfloor q + 1 <= n)%Z).
  { intro P. assert (Qfloor q < n)%Z; [|lia].
    rewrite Zlt_Qlt. lra. }
  destruct (Qcompare (q - inject_Z (Qfloor q)) (1 # 2)) eqn:C.
  - destruct (Z.even (Qfloor q)); [exact L|].
    apply S. apply Qeq_alt in C. rewrite C. reflexivity.
  - exact L.
  - apply S. apply Qgt_alt in C. lra.
Qed.

Lemma round_half_even_ge (q : Q) (n : Z) :
  inject_Z n <= q -> (n <= round_half_even q)%Z.
Proof.
  intro H. unfold round_half_even.
  assert (L : (n <= Qfloor q)%Z).
  { rewrite <- (Qfloor_Z n). now apply Qfloor_resp_le. }
  destruct (Qcompare (q - inject_Z (Qfloor q)) (1 # 2));
    [destruct (Z.even (Qfloor q))| |]; lia.
Qed.

Lemma ilog2_le (q : Q) : 0 < q -> pow2 (ilog2 q) <= q.
Proof.
  intro P. unfold ilog2.
  rewrite (Qabs_pos q) by lra.
  destruct (Qle_bool _ q) eqn:B; [now apply Qle_bool_iff|]. clear B.
  destruct q as [n d]. simpl.
  assert (N : (0 < n)%Z). { unfold Qlt in P. simpl in P. lia. }
  rewrite Z.abs_eq by lia.
  set (a := Z.log2 n). set (b := Z.log2 (Z.pos d)).
  assert (A : (2 ^ a <= n)%Z) by (apply Z.log2_spec; lia).
  assert (B : (Z.pos d < 2 ^ (b + 1))%Z).
  { replace (b + 1)%Z with (Z.succ b) by lia. apply Z.log2_spec. lia. }
  assert (A0 : (0 <= a)%Z) by apply Z.log2_nonneg.
  assert (B0 : (0 <= b)%Z) by apply Z.log2_nonneg.
  (* pow2 (a - b - 1) * d <= n *)
  assert (M : pow2 (a - b - 1) * inject_Z (2 ^ (b + 1)) == inject_Z (2 ^ a)).
  { rewrite <- !pow2_Z by lia. rewrite <- pow2_plus. now replace (a - b - 1 + (b + 1))%Z with a by lia. }
  assert (K : pow2 (a - b - 1) * inject_Z (Z.pos d) <= inject_Z n).
  { apply Qle_trans with (pow2 (a - b - 1) * inject_Z (2 ^ (b + 1))).
    - apply Qmult_le_l; [apply pow2_pos|]. rewrite <- Zle_Qle. lia.
    - rewrite M. now rewrite <- Zle_Qle. }
  assert (E : n # d == inject_Z n / inject_Z (Z.pos d)) by apply Qmake_Qdiv.
  rewrite E. apply Qle_shift_div_l; [reflexivity|exact K].
Qed.

(** Rounding does not cross an integer of at most 53 bits. *)
Lemma binary64_le_int (v : Q) (m : Z) :
  0 < v -> v <= inject_Z m -> (m <= 2 ^ 53)%Z -> binary64 v <= inject_Z m.
Proof.
  intros P U M. unfold binary64.
  destruct (Qeq_bool v 0) eqn:Z0; [apply Qeq_bool_eq in Z0; lra|clear Z0].
  set (e := Z.max (ilog2 v - 52) (-1074)).
  assert (PE := pow2_pos e).
  destruct (Z_le_gt_dec e 0) as [E|E].
  - assert (D : inject_Z m / pow2 e == inject_Z (m * 2 ^ (- e))).
    { rewrite inject_Z_mult, <- pow2_Z by lia. unfold Qdiv.
      unfold pow2 at 2. rewrite Qpower_opp. reflexivity. }
    assert (R : (round_half_even (v / pow2 e) <= m * 2 ^ (- e))%Z).
    { apply round_half_even_le. rewrite <- D. unfold Qdiv.
      apply Qmult_le_compat_r; [exact U|]. apply Qlt_le_weak.
      now apply Qinv_lt_0_compat. }
    apply Qle_trans with (inject_Z (m * 2 ^ (- e)) * pow2 e).
    + apply Qmult_le_compat_r; [now rewrite <- Zle_Qle|lra].
    + rewrite <- D. unfold Qdiv. rewrite <- Qmult_assoc.
      rewrite (Qmult_comm (/ pow2 e)), Qmult_inv_r by lra. lra.
  - (* e > 0: then 2^53 <= v <= m <= 2^53 *)
    assert (K : e = (ilog2 v - 52)%Z) by lia.
    assert (L := ilog2_le v P).
    assert (L2 : pow2 (e + 52) <= v).
    { now replace (e + 52)%Z with (ilog2 v) by lia. }
    assert (L3 : pow2 53 <= pow2 (e + 52)) by (apply pow2_le; lia).
    assert (M' : inject_Z m <= pow2 53).
    { rewrite pow2_Z by lia. now rewrite <- Zle_Qle. }
    assert (V : v == pow2 (e + 52)) by (apply Qle_antisym; lra).
    assert (Q52 : v / pow2 e == inject_Z (2 ^ 52)).
    { rewrite V, pow2_plus, <- pow2_Z by lia. unfold Qdiv.
      rewrite (Qmult_comm (pow2 e)), <- Qmult_assoc, Qmult_inv_r by lra. lra. }
    assert (R : (round_half_even (v / pow2 e) <= 2 ^ 52)%Z).
    { apply round_half_even_le. rewrite Q52. apply Qle_refl. }
    apply Qle_trans with (inject_Z (2 ^ 52) * pow2 e).
    + apply Qmult_le_compat_r; [now rewrite <- Zle_Qle|lra].
    + rewrite <- pow2_Z by lia. rewrite <- pow2_plus.
      replace (52 + e)%Z with (e + 52)%Z by lia. lra.
Qed.

Lemma binary64_ge_int (v : Q) (n : Z) :
  0 < v -> inject_Z n <= v -> (n <= 2 ^ 53)%Z -> inject_Z n <= binary64 v.
Proof.
  intros P U M. unfold binary64.
  destruct (Qeq_bool v 0) eqn:Z0; [apply Qeq_bool_eq in Z0; lra|clear Z0].
  set (e := Z.max (ilog2 v - 52) (-1074)).
  assert (PE := pow2_pos e).
  destruct (Z_le_gt_dec e 0) as [E|E].
  - assert (D : inject_Z n / pow2 e == inject_Z (n * 2 ^ (- e))).
    { rewrite inject_Z_mult, <- pow2_Z by lia. unfold Qdiv.
      unfold pow2 at 2. rewrite Qpower_opp. reflexivity. }
    assert (R : (n * 2 ^ (- e) <= round_half_even (v / pow2 e))%Z).
    { apply round_half_even_ge. rewrite <- D. unfold Qdiv.
      apply Qmult_le_compat_r; [exact U|]. apply Qlt_le_weak.
      now apply Qinv_lt_0_compat. }
    apply Qle_trans with (inject_Z (n * 2 ^ (- e)) * pow2 e).
    + rewrite <- D. unfold Qdiv. rewrite <- Qmult_assoc.
      rewrite (Qmult_comm (/ pow2 e)), Qmult_inv_r by lra. lra.
    + apply Qmult_le_compat_r; [now rewrite <- Zle_Qle|lra].
  - assert (K : e = (ilog2 v - 52)%Z) by lia.
    assert (L := ilog2_le v P).
    assert (L2 : pow2 (e + 52) <= v).
    { now replace (e + 52)%Z with (ilog2 v) by lia. }
    assert (Q52 : inject_Z (2 ^ 52) <= v / pow2 e).
    { apply Qle_shift_div_l; [exact PE|].
      rewrite <- pow2_Z by lia. rewrite <- pow2_plus.
      now replace (52 + e)%Z with (e + 52)%Z by lia. }
    assert (R := round_half_even_ge _ _ Q52).
    apply Qle_trans with (inject_Z (2 ^ 52) * pow2 e).
    + rewrite <- pow2_Z by lia. rewrite <- pow2_plus.
      apply Qle_trans with (pow2 53).
      * rewrite pow2_Z by lia. now rewrite <- Zle_Qle.
      * apply pow2_le. lia.
    + apply Qmult_le_compat_r; [now rewrite <- Zle_Qle|lra].
Qed.

Lemma cooled_down_spec (self : App) (now : Q) :
  cooled_down self now = true <-> last_click_time self + CLICK_COOLDOWN <= now.
Proof.
  unfold cooled_down. rewrite Qle_bool_iff. split; intro H; lra.
Qed.

(** ** The frame loop calls the resolvers *)

Lemma attrs_extract (self : App) (h : Hand) :
  attrs (extract_landmarks self h) = Some (hand_attrs h).
Proof. reflexivity. Qed.

Lemma process_frame_one_hand (self : App) (h : Hand) (now : Q) :
  process_frame self [h] now =
  match process_single_hand
          (entering (set_mode_message self "No hands detected") h "One hand")
          now with
  | Some (self', tr) => Some (self', tr ++ [])
  | None => None
  end.
Proof. reflexivity. Qed.

Lemma process_frame_two_hands (self : App) (h1 h2 : Hand) (now : Q) :
  process_frame self [h1; h2] now =
  match process_two_hands
          (entering (set_mode_message self "No hands detected") h1 "Two hands")
          [h1; h2] with
  | Some (self1, tr1) =>
    match process_two_hands (entering self1 h2 "Two hands") [h1; h2] with
    | Some (self2, tr2) => Some (self2, tr1 ++ tr2 ++ [])
    | None => None
    end
  | None => None
  end.
Proof.
  unfold process_frame, for_each_hand, entering. simpl List.length. simpl Nat.eqb.
  destruct (process_two_hands _ _) as [[self1 tr1]|]; [|reflexivity].
  destruct (process_two_hands _ _) as [[self2 tr2]|]; reflexivity.
Qed.

(** ** What the resolvers write *)

Lemma set_same (self : App) :
  set_status_message (set_last_click_time self (last_click_time self))
    (status_message self) = self.
Proof. destruct self; reflexivity. Qed.

Lemma set_status_only (self : App) (m : string) :
  set_status_message self m =
  set_status_message (set_last_click_time self (last_click_time self)) m.
Proof. destruct self; reflexivity. Qed.

Lemma single_hand_writes (self self' : App) (now : Q) (tr : list Action) :
  process_single_hand self now = Some (self', tr) ->
  exists t m, self' = set_status_message (set_last_click_time self t) m.
Proof.
  unfold process_single_hand. destruct (attrs self) as [a|]; [|discriminate].
  intro H. injection H as H.
  repeat match type of H with
         | (if ?c then _ else _) = _ => destruct c
         end;
    injection H as <- _;
    first [ now eexists _, _; apply set_status_only
          | now eexists _, _
          | now eexists _, _; symmetry; apply set_same ].
Qed.

Lemma sel_set_same (self : App) :
  set_status_message (set_selection_active self (selection_active self))
    (status_message self) = self.
Proof. destruct self; reflexivity. Qed.

Lemma sel_set_status_only (self : App) (m : string) :
  set_status_message self m =
  set_status_message (set_selection_active self (selection_active self)) m.
Proof. destruct self; reflexivity. Qed.

Lemma sel_set_status_twice (self : App) (b : bool) (m m' : string) :
  set_status_message (set_status_message (set_selection_active self b) m) m' =
  set_status_message (set_selection_active self b) m'.
Proof. reflexivity. Qed.

Lemma two_hands_writes (self self' : App) (multi : list Hand)
    (tr : list Action) :
  process_two_hands self multi = Some (self', tr) ->
  exists b m, self' = set_status_message (set_selection_active self b) m.
Proof.
  unfold process_two_hands.
  destruct multi as [|hand1 [|hand2 rest]]; try discriminate.
  intro H. injection H as H.
  destruct (hand1_all_extended hand1 && hand2_index_only hand2).
  - destruct (selection_active self) eqn:A; simpl in H.
    + injection H as <- _. eexists _, _. apply sel_set_status_only.
    + injection H as <- _. now eexists _, _.
  - destruct (selection_active self) eqn:A.
    + injection H as <- _. now eexists _, _.
    + destruct (hand1_all_extended hand1 && hand2_index_middle hand2).
      * destruct (Qltb _ _); injection H as <- _;
          eexists _, _; apply sel_set_status_only.
      * injection H as <- _. eexists _, _. symmetry. apply sel_set_same.
Qed.

(** ** The frame loop always returns *)

Lemma process_single_hand_total (self : App) (a : HandAttrs) (now : Q) :
  attrs self = Some a ->
  exists self' tr, process_single_hand self now = Some (self', tr).
Proof.
  intro A. unfold process_single_hand. rewrite A.
  match goal with |- exists _ _, Some ?p = _ => exists (fst p), (snd p) end.
  now rewrite <- surjective_pairing.
Qed.

Lemma process_two_hands_total (self : App) (h1 h2 : Hand) :
  exists self' tr, process_two_hands self [h1; h2] = Some (self', tr).
Proof.
  unfold process_two_hands.
  match goal with |- exists _ _, Some ?p = _ => exists (fst p), (snd p) end.
  now rewrite <- surjective_pairing.
Qed.

Lemma for_each_hand_total (multi rest : list Hand) (now : Q) (self : App) :
  exists self' tr, for_each_hand multi rest now self = Some (self', tr).
Proof.
  revert self. induction rest as [|h rest IH]; intro self; simpl.
  - now eexists _, _.
  - destruct (Nat.eqb (List.length multi) 1) eqn:L1.
    + destruct (process_single_hand_total
                  (set_mode_message (extract_landmarks self h) "One hand")
                  (hand_attrs h) now eq_refl) as (s1 & t1 & E).
      rewrite E. destruct (IH s1) as (s2 & t2 & E2). rewrite E2.
      now eexists _, _.
    + destruct (Nat.eqb (List.length multi) 2) eqn:L2.
      * destruct multi as [|h1 [|h2 [|h3 m]]]; try discriminate.
        destruct (process_two_hands_total
                    (set_mode_message (extract_landmarks self h) "Two hands")
                    h1 h2) as (s1 & t1 & E).
        rewrite E. destruct (IH s1) as (s2 & t2 & E2). rewrite E2.
        now eexists _, _.
      * destruct (IH (extract_landmarks self h)) as (s2 & t2 & E2).
        rewrite E2. now eexists _, _.
Qed.

Lemma process_frame_total (self : App) (hands : list Hand) (now : Q) :
  exists self' tr, process_frame self hands now = Some (self', tr).
Proof.
  unfold process_frame. destruct hands as [|h hands].
  - now eexists _, _.
  - apply for_each_hand_total.
Qed.

Lemma run_frames_total (self : App) (frames : list Frame) :
  exists self' trs, run_frames self frames = Some (self', trs).
Proof.
  revert self. induction frames as [|[hands now] frames IH]; intro self; simpl.
  - now eexists _, _.
  - destruct (process_frame_total self hands now) as (s1 & t1 & E). rewrite E.
    destruct (IH s1) as (s2 & t2 & E2). rewrite E2. now eexists _, _.
Qed.

Lemma main_loop_total (ticks : list Tick) (self : App) :
  exists self' tr, main_loop ticks self = Some (self', tr).
Proof.
  revert self. induction ticks as [|t ticks IH]; intro self; simpl.
  - now eexists _, _.
  - set (s0 := match tray t with Some i => tray_callback self i | None => self end).
    destruct (running s0 && cam_opened t); [|now eexists _, _].
    destruct (Z.eqb (Z.land (key t) 255) ord_q); [now eexists _, _|].
    set (s1 := if Z.eqb (Z.land (key t) 255) ord_p then toggle_pause s0 else s0).
    destruct (paused s1); [apply IH|].
    destruct (capture t) as [hands|]; [|apply IH].
    destruct (process_frame_total s1 hands (clock t)) as (s2 & t2 & E).
    rewrite E. destruct (IH s2) as (s3 & t3 & E3). rewrite E3.
    now eexists _, _.
Qed.

(** ** The branches of the single-hand resolver *)

Lemma index_and_middle_excl (a : HandAttrs) :
  index_and_middle a = true -> only_index a = false.
Proof.
  unfold index_and_middle, only_index.
  destruct (index_extended a), (middle_extended a), (ring_extended a),
    (little_extended a); simpl; congruence.
Qed.

Lemma all_extended_excl (a : HandAttrs) :
  all_extended a = true ->
  only_index a = false /\ index_and_middle a = false
  /\ index_and_little a = false.
Proof.
  unfold all_extended, index_and_middle, index_and_little, only_index.
  destruct (thumb_extended a), (index_extended a), (middle_extended a),
    (ring_extended a), (little_extended a); simpl; intuition congruence.
Qed.

Lemma single_only_index (self : App) (a : HandAttrs) (now : Q) :
  attrs self = Some a -> only_index a = true ->
  process_single_hand self now =
  Some (set_status_message self "Mouse Control",
        [MoveToEased
           (int_of (x (index_tip a) * inject_Z (screen_width self)))
           (int_of
              (binary64
                 (y (index_tip a) * inject_Z (screen_height self) + 30)))]).
Proof.
  intros A O. unfold process_single_hand. now rewrite A, O.
Qed.

Lemma single_index_and_middle (self : App) (a : HandAttrs) (now : Q) :
  attrs self = Some a -> index_and_middle a = true ->
  process_single_hand self now =
  Some (if Qltb (5 # 10) (average64 (y (index_tip a)) (y (middle_tip a)))
        then (set_status_message self "Scrolling Down", [Scroll (-50)])
        else (set_status_message self "Scrolling Up", [Scroll 50])).
Proof.
  intros A M. unfold process_single_hand.
  now rewrite A, (index_and_middle_excl a M), M.
Qed.

Lemma single_all_extended (self : App) (a : HandAttrs) (now : Q) :
  attrs self = Some a -> all_extended a = true ->
  process_single_hand self now =
  Some (if cooled_down self now
        then (set_status_message (set_last_click_time self now) "Left Click",
              [Click LeftButton])
        else (self, [])).
Proof.
  intros A E. unfold process_single_hand.
  destruct (all_extended_excl a E) as (E1 & E2 & E3).
  now rewrite A, E1, E2, E3, E.
Qed.

(** The resolver is the rule table read top to bottom. *)
Lemma process_single_hand_rules (self : App) (now : Q) :
  process_single_hand self now =
  match attrs self with
  | None => None
  | Some a => Some (first_match single_hand_rules self a now)
  end.
Proof.
  unfold process_single_hand. destruct (attrs self) as [a|]; reflexivity.
Qed.

(** ** C8: the finger-state classifier *)

(** C8 (amended).  Each finger flag that [extract_landmarks] stores is
    [extended] applied to the y-coordinates of that finger's tip and joint,
    and [extended] depends on nothing but the values of the two numbers.
    If [extended a b] holds then [extended b a] does not; for different
    numbers swapping them flips the result; for equal numbers both orders
    give false. *)
Theorem C8_extended_swap :
  (forall h : Hand,
     thumb_extended (hand_attrs h)
       = extended (y (h THUMB_TIP)) (y (h THUMB_IP))
     /\ index_extended (hand_attrs h)
       = extended (y (h INDEX_FINGER_TIP)) (y (h INDEX_FINGER_PIP))
     /\ middle_extended (hand_attrs h)
       = extended (y (h MIDDLE_FINGER_TIP)) (y (h MIDDLE_FINGER_PIP))
     /\ ring_extended (hand_attrs h)
       = extended (y (h RING_FINGER_TIP)) (y (h RING_FINGER_PIP))
     /\ little_extended (hand_attrs h)
       = extended (y (h PINKY_TIP)) (y (h PINKY_PIP)))
  /\ (forall a a' b b' : Q,
        a == a' -> b == b' -> extended a b = extended a' b')
  /\ (forall a b : Q, extended a b = true -> extended b a = false)
  /\ (forall a b : Q, ~ a == b -> extended b a = negb (extended a b))
  /\ (forall a b : Q, a == b -> extended a b = false /\ extended b a = false).
Proof.
  split; [intro h; now repeat split|].
  split; [intros a a' b b'; apply Qltb_compat|].
  split; [intros a b; apply Qltb_asym|].
  split.
  - intros a b N. unfold extended.
    destruct (Qltb a b) eqn:E; simpl.
    + now apply Qltb_asym.
    + apply Qltb_lt. apply Qltb_ge in E.
      apply Qle_lteq in E. destruct E as [E|E]; [exact E|].
      exfalso. apply N. now symmetry.
  - intros a b E. unfold extended.
    split; apply Qltb_ge; rewrite E; apply Qle_refl.
Qed.

Lemma C8_extended_swap_witness :
  extended (5 # 10) (3 # 10) = false
  /\ extended (3 # 10) (5 # 10) = negb (extended (5 # 10) (3 # 10))
  /\ extended (2 # 4) (1 # 2) = false.
Proof.
  destruct C8_extended_swap as (_ & _ & A & S & E).
  split; [|split].
  - apply (A (3 # 10) (5 # 10)). reflexivity.
  - apply (S (5 # 10) (3 # 10)). discriminate.
  - apply (E (2 # 4) (1 # 2)). reflexivity.
Defined.

(** The claim as first stated fails when tip and joint are level: the swap
    does not flip the result, both orders give false. *)
Lemma C8_level_counterexample :
  ~ (forall a b : Q, extended a b = false -> extended b a = true).
Proof.
  intro H. specialize (H (1 # 2) (1 # 2) eq_refl). discriminate H.
Qed.

(** ** C7: cursor position *)

(** C7 (amended).  On a one-hand frame with only the index finger
    extended, the one command issued is a cursor move to
    [(int (x * screen_width), int (y * screen_height + 30))], where
    [(x, y)] is the index tip, the sum is the binary64 sum and [int]
    truncates toward zero: each coordinate is the floor of the computed
    value when that value is not negative and its ceiling when it is not
    positive; when the sum is exact and not negative the row is
    [floor (y * screen_height + 30)]. *)
Theorem C7_move_cursor_position (self : App) (h : Hand) (now : Q) :
  only_index (hand_attrs h) = true ->
  exists self',
    process_frame self [h] now =
    Some (self',
          [MoveToEased
             (int_of (x (h INDEX_FINGER_TIP) * inject_Z (screen_width self)))
             (int_of
                (binary64
                   (y (h INDEX_FINGER_TIP) * inject_Z (screen_height self)
                    + 30)))])
    /\ status_message self' = "Mouse Control"%string
    /\ (0 <= x (h INDEX_FINGER_TIP) * inject_Z (screen_width self) ->
        int_of (x (h INDEX_FINGER_TIP) * inject_Z (screen_width self))
        = Qfloor (x (h INDEX_FINGER_TIP) * inject_Z (screen_width self)))
    /\ (x (h INDEX_FINGER_TIP) * inject_Z (screen_width self) <= 0 ->
        int_of (x (h INDEX_FINGER_TIP) * inject_Z (screen_width self))
        = Qceiling (x (h INDEX_FINGER_TIP) * inject_Z (screen_width self)))
    /\ (0 <= binary64
               (y (h INDEX_FINGER_TIP) * inject_Z (screen_height self) + 30) ->
        int_of
          (binary64
             (y (h INDEX_FINGER_TIP) * inject_Z (screen_height self) + 30))
        = Qfloor
            (binary64
               (y (h INDEX_FINGER_TIP) * inject_Z (screen_height self) + 30)))
    /\ (binary64
          (y (h INDEX_FINGER_TIP) * inject_Z (screen_height self) + 30) <= 0 ->
        int_of
          (binary64
             (y (h INDEX_FINGER_TIP) * inject_Z (screen_height self) + 30))
        = Qceiling
            (binary64
               (y (h INDEX_FINGER_TIP) * inject_Z (screen_height self) + 30)))
    /\ (binary64
          (y (h INDEX_FINGER_TIP) * inject_Z (screen_height self) + 30)
        == y (h INDEX_FINGER_TIP) * inject_Z (screen_height self) + 30 ->
        0 <= y (h INDEX_FINGER_TIP) * inject_Z (screen_height self) + 30 ->
        int_of
          (binary64
             (y (h INDEX_FINGER_TIP) * inject_Z (screen_height self) + 30))
        = Qfloor
            (y (h INDEX_FINGER_TIP) * inject_Z (screen_height self) + 30)).
Proof.
  intro O.
  rewrite process_frame_one_hand.
  rewrite (single_only_index
             (entering (set_mode_message self "No hands detected") h "One hand")
             (hand_attrs h) now eq_refl O).
  eexists. split; [reflexivity|]. split; [reflexivity|].
  split; [apply int_of_floor|]. split; [apply int_of_ceiling|].
  split; [apply int_of_floor|]. split; [apply int_of_ceiling|].
  intros E P. rewrite int_of_floor by (rewrite E; exact P).
  apply Qfloor_comp. exact E.
Qed.

(** Index tip at (0.5, 0.5) on a 1920 x 1080 screen: the cursor goes to
    (960, 570). *)
Lemma C7_move_cursor_position_witness :
  exists self',
    process_frame (init 0 1920 1080) [pointing] 0 =
    Some (self', [MoveToEased 960 570])
    /\ status_message self' = "Mouse Control"%string.
Proof.
  destruct (C7_move_cursor_position (init 0 1920 1080) pointing 0 eq_refl)
    as (s & E & S & _).
  exists s. split; [|exact S].
  rewrite E. vm_compute. reflexivity.
Defined.

(** An index tip off the frame, at (-1/256, -1/32), on a 1920 x 1080
    screen: the products are -7.5 and -33.75, the claim as first stated
    asks for a move to (floor (-7.5), floor (-3.75)) = (-8, -4); the
    program moves to (-7, -3). *)
Lemma C7_off_frame_counterexample :
  only_index (hand_attrs off_frame_pointing) = true
  /\ (exists self',
        process_frame (init 0 1920 1080) [off_frame_pointing] 0
        = Some (self', [MoveToEased (-7) (-3)]))
  /\ Qfloor (x (off_frame_pointing INDEX_FINGER_TIP) * inject_Z 1920)
     = (-8)%Z
  /\ Qfloor (y (off_frame_pointing INDEX_FINGER_TIP) * inject_Z 1080 + 30)
     = (-4)%Z.
Proof.
  split; [reflexivity|].
  split; [eexists; vm_compute; reflexivity|].
  split; reflexivity.
Qed.

(** ** C3: vertical scroll *)

(** C3 (amended).  On a one-hand frame with index and middle extended and
    ring and little not, the one command issued is a vertical scroll of
    magnitude 50: down ([-50]) when the average of the index-tip and
    middle-tip y, as the program computes it (the binary64 sum, halved),
    is strictly above 0.5, up ([+50]) when it is at most 0.5.  A computed
    average of 0.7 (the float of that name) scrolls down. *)
Theorem C3_vertical_scroll (self : App) (h : Hand) (now : Q) :
  index_and_middle (hand_attrs h) = true ->
  (5 # 10 < average64 (y (h INDEX_FINGER_TIP)) (y (h MIDDLE_FINGER_TIP)) ->
   exists self', process_frame self [h] now = Some (self', [Scroll (-50)]))
  /\ (average64 (y (h INDEX_FINGER_TIP)) (y (h MIDDLE_FINGER_TIP)) <= 5 # 10 ->
      exists self', process_frame self [h] now = Some (self', [Scroll 50]))
  /\ (average64 (y (h INDEX_FINGER_TIP)) (y (h MIDDLE_FINGER_TIP))
      == binary64 (7 # 10) ->
      exists self', process_frame self [h] now = Some (self', [Scroll (-50)])).
Proof.
  intro M.
  assert (E := single_index_and_middle
                 (entering (set_mode_message self "No hands detected") h
                    "One hand") (hand_attrs h) now eq_refl M).
  change (y (index_tip (hand_attrs h))) with (y (h INDEX_FINGER_TIP)) in E.
  change (y (middle_tip (hand_attrs h))) with (y (h MIDDLE_FINGER_TIP)) in E.
  rewrite process_frame_one_hand, E. clear E.
  split; [|split]; intro A.
  - apply Qltb_lt in A. rewrite A. now eexists.
  - apply Qltb_ge in A. rewrite A. now eexists.
  - rewrite (Qltb_compat _ (5 # 10) _ (binary64 (7 # 10)) (Qeq_refl _) A).
    assert (L : Qltb (5 # 10) (binary64 (7 # 10)) = true)
      by (vm_compute; reflexivity).
    rewrite L. now eexists.
Qed.

Lemma C3_vertical_scroll_witness :
  (exists self',
     process_frame (init 0 1920 1080) [low_peace_sign] 0 =
     Some (self', [Scroll (-50)]))
  /\ (exists self',
        process_frame (init 0 1920 1080) [peace_sign] 0 =
        Some (self', [Scroll 50])).
Proof.
  split.
  - apply (C3_vertical_scroll (init 0 1920 1080) low_peace_sign 0 eq_refl).
    vm_compute. reflexivity.
  - apply (C3_vertical_scroll (init 0 1920 1080) peace_sign 0 eq_refl).
    vm_compute. discriminate.
Defined.

(** At an average of exactly 0.5 the claim as first stated asks for a
    scroll down; the program scrolls up. *)
Lemma C3_boundary_counterexample :
  ~ (forall (self : App) (h : Hand) (now : Q),
       index_and_middle (hand_attrs h) = true ->
       5 # 10 <= (y (h INDEX_FINGER_TIP) + y (h MIDDLE_FINGER_TIP)) / 2 ->
       exists self',
         process_frame self [h] now = Some (self', [Scroll (-50)])).
Proof.
  intro H.
  destruct (H (init 0 1920 1080) mid_peace_sign 0 eq_refl) as [self' E].
  - unfold Qle; simpl; lia.
  - vm_compute in E. discriminate E.
Qed.

(** The average is the rounded one.  With the index tip at 0.5 and the
    middle tip at the next float above it the exact average is above 0.5,
    but the binary64 sum is 1 and the program scrolls up. *)
Lemma rounded_average_scrolls_up :
  index_and_middle (hand_attrs just_above_half) = true
  /\ 5 # 10 < (y (just_above_half INDEX_FINGER_TIP)
               + y (just_above_half MIDDLE_FINGER_TIP)) / 2
  /\ average64 (y (just_above_half INDEX_FINGER_TIP))
       (y (just_above_half MIDDLE_FINGER_TIP)) == 5 # 10
  /\ exists self',
       process_frame (init 0 1920 1080) [just_above_half] 0
       = Some (self', [Scroll 50]).
Proof.
  split; [reflexivity|]. split; [vm_compute; reflexivity|].
  split; [vm_compute; reflexivity|].
  eexists. vm_compute. reflexivity.
Qed.

(** ** C5: priority of the single-hand branches *)

(** C5.  The single-hand resolver is the rule table move, vertical scroll,
    horizontal scroll, left click, right click read in that order, the
    first rule whose condition holds being the one applied and no rule
    meaning no command.  A hand with only the index extended gets the
    cursor move.  A hand with all five fingers extended and a pinch
    distance under 0.05 gets the left-click branch: a left click when the
    cooldown has passed, nothing otherwise, and never a right click. *)
Theorem C5_resolver_priority :
  (forall (self : App) (now : Q),
     process_single_hand self now =
     match attrs self with
     | None => None
     | Some a => Some (first_match single_hand_rules self a now)
     end)
  /\ (forall (self : App) (h : Hand) (now : Q),
        only_index (hand_attrs h) = true ->
        exists self' px py,
          process_frame self [h] now = Some (self', [MoveToEased px py]))
  /\ (forall (self : App) (h : Hand) (now : Q),
        all_extended (hand_attrs h) = true ->
        pinch (hand_attrs h) = true ->
        exists self' tr,
          process_frame self [h] now = Some (self', tr)
          /\ tr = (if cooled_down self now then [Click LeftButton] else [])
          /\ count is_right_click tr = 0%nat).
Proof.
  split; [exact process_single_hand_rules|]. split.
  - intros self h now O.
    rewrite process_frame_one_hand.
    rewrite (single_only_index
               (entering (set_mode_message self "No hands detected") h
                  "One hand") (hand_attrs h) now eq_refl O).
    now eexists _, _, _.
  - intros self h now A _.
    rewrite process_frame_one_hand.
    rewrite (single_all_extended
               (entering (set_mode_message self "No hands detected") h
                  "One hand") (hand_attrs h) now eq_refl A).
    change (cooled_down (entering _ h _) now) with (cooled_down self now).
    destruct (cooled_down self now); eexists _, _; repeat split.
Qed.

(** The open palm of the samples has its thumb and middle tips at the same
    point, so it is also a pinch; one second after start-up it clicks left
    and not right. *)
Lemma C5_resolver_priority_witness :
  (exists self' px py,
     process_frame (init 0 1920 1080) [pointing] 0 =
     Some (self', [MoveToEased px py]))
  /\ (exists self' tr,
        process_frame (init 0 1920 1080) [open_palm] 1 = Some (self', tr)
        /\ tr = [Click LeftButton]
        /\ count is_right_click tr = 0%nat).
Proof.
  destruct C5_resolver_priority as (_ & M & L). split.
  - apply (M (init 0 1920 1080) pointing 0). reflexivity.
  - apply (L (init 0 1920 1080) open_palm 1); reflexivity.
Defined.

(** ** C6: starting and continuing the selection drag *)

Lemma two_hands_drag (self : App) (h1 h2 : Hand) :
  hand1_all_extended h1 && hand2_index_only h2 = true ->
  process_two_hands self [h1; h2] =
  Some (set_status_message
          (if selection_active self then self
           else set_status_message (set_selection_active self true)
                  "Text Selection Started")
          "Text Selection Active",
        (if selection_active self then []
         else [MoveTo (fst (to_screen self (h1 INDEX_FINGER_TIP)))
                      (snd (to_screen self (h1 INDEX_FINGER_TIP)));
               MouseDown])
        ++ [MoveTo (fst (to_screen self (h2 INDEX_FINGER_TIP)))
                   (snd (to_screen self (h2 INDEX_FINGER_TIP)))]).
Proof.
  intro P. unfold process_two_hands. rewrite P.
  destruct (selection_active self); reflexivity.
Qed.

(** C6 (amended).  When the first hand has all five fingers extended and
    the second has the index tip above its joint and the middle, ring and
    little tips strictly below theirs, the two-hand resolver, with no
    selection active, moves to the first hand's index tip in screen
    coordinates, presses the button, moves to the second hand's index tip,
    and the selection is active afterwards; with a selection already
    active it only moves to the second hand's index tip.  A frame runs the
    resolver once per hand, so its commands are these followed by the last
    move once more. *)
Theorem C6_drag_start_and_move (self : App) (h1 h2 : Hand) :
  hand1_all_extended h1 = true ->
  hand2_index_only h2 = true ->
  (selection_active self = false ->
   exists self',
     process_two_hands self [h1; h2] =
     Some (self',
           [MoveTo (fst (to_screen self (h1 INDEX_FINGER_TIP)))
                   (snd (to_screen self (h1 INDEX_FINGER_TIP)));
            MouseDown;
            MoveTo (fst (to_screen self (h2 INDEX_FINGER_TIP)))
                   (snd (to_screen self (h2 INDEX_FINGER_TIP)))])
     /\ selection_active self' = true)
  /\ (selection_active self = true ->
      exists self',
        process_two_hands self [h1; h2] =
        Some (self',
              [MoveTo (fst (to_screen self (h2 INDEX_FINGER_TIP)))
                      (snd (to_screen self (h2 INDEX_FINGER_TIP)))])
        /\ selection_active self' = true)
  /\ (forall now : Q,
        exists self',
          process_frame self [h1; h2] now =
          Some (self',
                (if selection_active self then []
                 else [MoveTo (fst (to_screen self (h1 INDEX_FINGER_TIP)))
                              (snd (to_screen self (h1 INDEX_FINGER_TIP)));
                       MouseDown])
                ++ [MoveTo (fst (to_screen self (h2 INDEX_FINGER_TIP)))
                           (snd (to_screen self (h2 INDEX_FINGER_TIP)));
                    MoveTo (fst (to_screen self (h2 INDEX_FINGER_TIP)))
                           (snd (to_screen self (h2 INDEX_FINGER_TIP)))])
          /\ selection_active self' = true).
Proof.
  intros A I.
  assert (P : hand1_all_extended h1 && hand2_index_only h2 = true)
    by now rewrite A, I.
  split; [|split].
  - intro S. rewrite (two_hands_drag self h1 h2 P), S.
    eexists. split; reflexivity.
  - intro S. rewrite (two_hands_drag self h1 h2 P), S.
    eexists. split; [reflexivity|exact S].
  - intro now. rewrite process_frame_two_hands.
    pose proof (two_hands_drag
                  (entering (set_mode_message self "No hands detected") h1
                     "Two hands") h1 h2 P) as E1.
    change (selection_active
              (entering (set_mode_message self "No hands detected") h1
                 "Two hands"))
      with (selection_active self) in E1.
    destruct (selection_active self) eqn:S; rewrite E1; clear E1.
    + match goal with
      | |- context [process_two_hands ?s [h1; h2]] =>
        pose proof (two_hands_drag s h1 h2 P) as E2;
          change (selection_active s) with (selection_active self) in E2;
          rewrite S in E2; rewrite E2
      end.
      eexists. split; [reflexivity|exact S].
    + match goal with
      | |- context [process_two_hands ?s [h1; h2]] =>
        pose proof (two_hands_drag s h1 h2 P) as E2;
          change (selection_active s) with true in E2; rewrite E2
      end.
      eexists. split; reflexivity.
Qed.

Lemma C6_drag_start_and_move_witness :
  (exists self',
     process_two_hands (init 0 1920 1080) [open_palm; pointing] =
     Some (self', [MoveTo 480 432; MouseDown; MoveTo 960 540])
     /\ selection_active self' = true)
  /\ (exists self',
        process_two_hands (set_selection_active (init 0 1920 1080) true)
          [open_palm; pointing] =
        Some (self', [MoveTo 960 540])
        /\ selection_active self' = true)
  /\ (exists self',
        process_frame (init 0 1920 1080) [open_palm; pointing] 0 =
        Some (self', [MoveTo 480 432; MouseDown; MoveTo 960 540;
                      MoveTo 960 540])
        /\ selection_active self' = true).
Proof.
  split; [|split].
  - apply (C6_drag_start_and_move (init 0 1920 1080) open_palm pointing);
      reflexivity.
  - apply (C6_drag_start_and_move (set_selection_active (init 0 1920 1080) true)
             open_palm pointing); reflexivity.
  - apply (C6_drag_start_and_move (init 0 1920 1080) open_palm pointing);
      reflexivity.
Defined.

(** The second hand has only the index extended by the classifier's test
    (no other tip is above its joint), but its other tips are level with
    their joints, not below them: the resolver does not take it for the
    pointing hand and starts no selection. *)
Lemma C6_level_finger_counterexample :
  hand1_all_extended open_palm = true
  /\ index_extended (hand_attrs level_pointing) = true
  /\ thumb_extended (hand_attrs level_pointing) = false
  /\ middle_extended (hand_attrs level_pointing) = false
  /\ ring_extended (hand_attrs level_pointing) = false
  /\ little_extended (hand_attrs level_pointing) = false
  /\ selection_active (init 0 1920 1080) = false
  /\ process_two_hands (init 0 1920 1080) [open_palm; level_pointing]
     = Some (init 0 1920 1080, [])
  /\ exists self',
       process_frame (init 0 1920 1080) [open_palm; level_pointing] 0
       = Some (self', [])
       /\ selection_active self' = false.
Proof.
  repeat (split; [vm_compute; reflexivity|]).
  eexists. split; vm_compute; reflexivity.
Qed.

(** ** C10: what each resolver leaves alone *)

(** C10.  The single-hand resolver changes nothing of the object but the
    click time and the status message, so the selection flag and the
    selection start are as before; the two-hand resolver changes nothing
    but the selection flag and the status message, so the click time is as
    before. *)
Theorem C10_resolver_frame_effects :
  (forall (self self' : App) (now : Q) (tr : list Action),
     process_single_hand self now = Some (self', tr) ->
     selection_active self' = selection_active self
     /\ selection_start self' = selection_start self
     /\ exists t m,
          self' = set_status_message (set_last_click_time self t) m)
  /\ (forall (self self' : App) (multi : list Hand) (tr : list Action),
        process_two_hands self multi = Some (self', tr) ->
        last_click_time self' = last_click_time self
        /\ exists b m,
             self' = set_status_message (set_selection_active self b) m).
Proof.
  split.
  - intros self self' now tr H.
    destruct (single_hand_writes _ _ _ _ H) as (t & m & ->).
    repeat split. now exists t, m.
  - intros self self' multi tr H.
    destruct (two_hands_writes _ _ _ _ H) as (b & m & ->).
    split; [reflexivity|]. now exists b, m.
Qed.

Lemma C10_resolver_frame_effects_witness :
  selection_active
    (set_status_message
       (set_last_click_time (extract_landmarks (init 0 1920 1080) open_palm) 1)
       "Left Click")
  = selection_active (extract_landmarks (init 0 1920 1080) open_palm)
  /\ last_click_time
       (set_status_message
          (set_status_message (set_selection_active (init 0 1920 1080) true)
             "Text Selection Started")
          "Text Selection Active")
     = last_click_time (init 0 1920 1080).
Proof.
  destruct C10_resolver_frame_effects as (S & T). split.
  - apply (S (extract_landmarks (init 0 1920 1080) open_palm) _ 1
             [Click LeftButton]).
    reflexivity.
  - apply (T (init 0 1920 1080) _ [open_palm; pointing]
             [MoveTo 480 432; MouseDown; MoveTo 960 540]).
    reflexivity.
Defined.

(** ** The mouse button *)

Ltac case_ifs H :=
  repeat match type of H with
         | context [if ?c then _ else _] => destruct c eqn:?
         end.

Lemma button_ok_app (held : bool) (t1 t2 : list Action) :
  button_ok held (t1 ++ t2)
  = button_ok held t1 && button_ok (button_after held t1) t2.
Proof.
  revert held. induction t1 as [|a t1 IH]; intro held; [reflexivity|].
  destruct a; simpl; rewrite ?IH, ?andb_assoc; reflexivity.
Qed.

Lemma button_after_app (held : bool) (t1 t2 : list Action) :
  button_after held (t1 ++ t2) = button_after (button_after held t1) t2.
Proof.
  revert held. induction t1 as [|a t1 IH]; intro held; [reflexivity|].
  destruct a; simpl; apply IH.
Qed.

Lemma button_step_refl (self : App) : button_step self self [].
Proof. split; reflexivity. Qed.

Lemma button_step_trans (s1 s2 s3 : App) (t1 t2 : list Action) :
  button_step s1 s2 t1 -> button_step s2 s3 t2 -> button_step s1 s3 (t1 ++ t2).
Proof.
  intros [O1 A1] [O2 A2]. split.
  - rewrite button_ok_app, O1, A1, O2. reflexivity.
  - rewrite button_after_app, A1, A2. reflexivity.
Qed.

Lemma single_hand_button (self self' : App) (now : Q) (tr : list Action) :
  process_single_hand self now = Some (self', tr) -> button_step self self' tr.
Proof.
  unfold process_single_hand, button_step.
  destruct (attrs self) as [a|]; [|discriminate].
  intro H. injection H as H. case_ifs H; injection H as <- <-;
    split; reflexivity.
Qed.

Lemma two_hands_button (self self' : App) (multi : list Hand)
    (tr : list Action) :
  process_two_hands self multi = Some (self', tr) -> button_step self self' tr.
Proof.
  unfold process_two_hands, button_step.
  destruct multi as [|hand1 [|hand2 rest]]; try discriminate.
  intro H. injection H as H.
  destruct (selection_active self) eqn:S; simpl negb in H; cbv iota in H;
    case_ifs H; injection H as <- <-; simpl; rewrite ?S; split; reflexivity.
Qed.

Lemma for_each_hand_button (multi rest : list Hand) (now : Q)
    (self self' : App) (tr : list Action) :
  for_each_hand multi rest now self = Some (self', tr) ->
  button_step self self' tr.
Proof.
  revert self self' tr.
  induction rest as [|h rest IH]; intros self self' tr; simpl.
  - intro H. injection H as <- <-. apply button_step_refl.
  - destruct (Nat.eqb (List.length multi) 1).
    + destruct (process_single_hand _ now) as [[s1 t1]|] eqn:E; [|discriminate].
      destruct (for_each_hand multi rest now s1) as [[s2 t2]|] eqn:E2;
        [|discriminate].
      intro H. injection H as <- <-.
      apply button_step_trans with s1; [|now apply IH].
      apply single_hand_button in E. exact E.
    + destruct (Nat.eqb (List.length multi) 2).
      * destruct (process_two_hands _ multi) as [[s1 t1]|] eqn:E;
          [|discriminate].
        destruct (for_each_hand multi rest now s1) as [[s2 t2]|] eqn:E2;
          [|discriminate].
        intro H. injection H as <- <-.
        apply button_step_trans with s1; [|now apply IH].
        apply two_hands_button in E. exact E.
      * destruct (for_each_hand multi rest now _) as [[s2 t2]|] eqn:E2;
          [|discriminate].
        intro H. injection H as <- <-.
        apply IH in E2. exact E2.
Qed.

Lemma process_frame_button (self self' : App) (hands : list Hand) (now : Q)
    (tr : list Action) :
  process_frame self hands now = Some (self', tr) -> button_step self self' tr.
Proof.
  unfold process_frame. destruct hands as [|h hands].
  - intro H. injection H as <- <-. split; reflexivity.
  - intro H. apply for_each_hand_button in H. exact H.
Qed.

Lemma toggle_pause_selection (self : App) :
  selection_active (toggle_pause self) = selection_active self.
Proof. unfold toggle_pause. simpl. destruct (negb (paused self)); reflexivity. Qed.

Lemma tray_callback_selection (self : App) (i : TrayItem) :
  selection_active (tray_callback self i) = selection_active self.
Proof. destruct i; simpl; trivial. apply toggle_pause_selection. Qed.

Lemma button_step_same (s1 s1' s2 : App) (tr : list Action) :
  selection_active s1' = selection_active s1 ->
  button_step s1' s2 tr -> button_step s1 s2 tr.
Proof. unfold button_step. now intros ->. Qed.

Lemma main_loop_button (ticks : list Tick) (self self' : App)
    (tr : list Action) :
  main_loop ticks self = Some (self', tr) -> button_step self self' tr.
Proof.
  revert self self' tr.
  induction ticks as [|t ticks IH]; intros self self' tr; simpl.
  - intro H. injection H as <- <-. apply button_step_refl.
  - set (s0 := match tray t with Some i => tray_callback self i | None => self end).
    assert (S0 : selection_active s0 = selection_active self).
    { subst s0. destruct (tray t); [apply tray_callback_selection|reflexivity]. }
    set (s1 := if Z.eqb (Z.land (key t) 255) ord_p then toggle_pause s0 else s0).
    assert (S1 : selection_active s1 = selection_active self).
    { subst s1. destruct (Z.eqb _ ord_p); [rewrite toggle_pause_selection|];
        exact S0. }
    clearbody s1 s0.
    destruct (running s0 && cam_opened t).
    2:{ intro H. injection H as <- <-.
        apply button_step_same with s0; [exact S0|apply button_step_refl]. }
    destruct (Z.eqb (Z.land (key t) 255) ord_q).
    { intro H. injection H as <- <-.
      apply button_step_same with s0; [exact S0|apply button_step_refl]. }
    destruct (paused s1).
    { intro H. apply button_step_same with s1; [exact S1|now apply IH]. }
    destruct (capture t) as [hands|].
    2:{ intro H. apply button_step_same with s1; [exact S1|now apply IH]. }
    destruct (process_frame s1 hands (clock t)) as [[s2 t2]|] eqn:E;
      [|discriminate].
    destruct (main_loop ticks s2) as [[s3 t3]|] eqn:E3; [|discriminate].
    intro H. injection H as <- <-.
    apply button_step_same with s1; [exact S1|].
    apply button_step_trans with s2; [|now apply IH].
    now apply process_frame_button in E.
Qed.

Lemma cleanup_button (self : App) :
  button_step self (fst (cleanup self)) (snd (cleanup self))
  /\ selection_active (fst (cleanup self)) = false.
Proof.
  unfold cleanup, button_step.
  destruct (selection_active self) eqn:S; simpl; rewrite ?S; auto.
Qed.

Lemma no_press_stays_up (l : list Action) :
  ~ In MouseDown l -> button_ok false l = true -> button_after false l = false.
Proof.
  induction l as [|a l IH]; [reflexivity|].
  intros N O. destruct a; simpl in *; try discriminate;
    try (apply IH; [tauto|exact O]).
  exfalso. apply N. now left.
Qed.

Lemma button_ok_no_double_release (held : bool) (tr : list Action) :
  button_ok held tr = true -> ~ double_release tr.
Proof.
  intros O (l1 & l2 & l3 & -> & N).
  rewrite button_ok_app in O. apply andb_prop in O as [_ O].
  simpl in O. apply andb_prop in O as [_ O].
  rewrite button_ok_app in O. apply andb_prop in O as [O2 O].
  rewrite (no_press_stays_up l2 N O2) in O. discriminate O.
Qed.

Lemma count_app (p : Action -> bool) (t1 t2 : list Action) :
  count p (t1 ++ t2) = (count p t1 + count p t2)%nat.
Proof. unfold count. now rewrite filter_app, length_app. Qed.

Lemma two_hands_release (self : App) (h1 h2 : Hand) :
  selection_active self = true ->
  hand1_all_extended h1 && hand2_index_only h2 = false ->
  process_two_hands self [h1; h2] =
  Some (set_status_message (set_selection_active self false)
          "Text Selection Completed",
        [MouseUp]).
Proof.
  intros S P. unfold process_two_hands. now rewrite P, S.
Qed.

Lemma two_hands_idle (self self' : App) (h1 h2 : Hand) (tr : list Action) :
  selection_active self = false ->
  hand1_all_extended h1 && hand2_index_only h2 = false ->
  process_two_hands self [h1; h2] = Some (self', tr) ->
  selection_active self' = false /\ count is_mouse_up tr = 0%nat.
Proof.
  intros S P. unfold process_two_hands. rewrite P, S.
  intro H. injection H as H.
  case_ifs H; injection H as <- <-; split; trivial.
Qed.

(** ** C2: releasing the selection drag *)

(** C2 (amended).  With a selection active, a two-hand frame that does not
    show the qualifying pose issues exactly one mouse-up and ends with the
    selection inactive, and so does shutdown ([cleanup]).  Every run of the
    program, whatever its inputs, returns, and its commands never contain
    two mouse-ups without a mouse-down between them. *)
Theorem C2_release_discipline :
  (forall (self : App) (h1 h2 : Hand) (now : Q),
     selection_active self = true ->
     qualifying_pose [h1; h2] = false ->
     exists self' tr,
       process_frame self [h1; h2] now = Some (self', tr)
       /\ count is_mouse_up tr = 1%nat
       /\ selection_active self' = false)
  /\ (forall self : App,
        selection_active self = true ->
        exists self',
          cleanup self = (self', [MouseUp])
          /\ selection_active self' = false)
  /\ (forall (self : App) (ticks : list Tick),
        exists self' tr,
          start self ticks = Some (self', tr)
          /\ ~ double_release tr
          /\ selection_active self' = false).
Proof.
  split; [|split].
  - intros self h1 h2 now S P. simpl in P.
    rewrite process_frame_two_hands.
    rewrite (two_hands_release
               (entering (set_mode_message self "No hands detected") h1
                  "Two hands") h1 h2 S P).
    match goal with
    | |- context [process_two_hands ?s [h1; h2]] =>
      destruct (process_two_hands_total s h1 h2) as (s2 & t2 & E);
        rewrite E; apply two_hands_idle in E; [|reflexivity|exact P]
    end.
    destruct E as [S2 C2]. exists s2, ([MouseUp] ++ t2 ++ []).
    split; [reflexivity|]. split; [|exact S2].
    rewrite !count_app, C2. reflexivity.
  - intros self S. unfold cleanup. rewrite S. now eexists.
  - intros self ticks. unfold start.
    destruct (main_loop_total ticks (set_running self true)) as (s1 & t1 & E).
    rewrite E. apply main_loop_button in E.
    destruct (cleanup_button s1) as [B F].
    destruct (cleanup s1) as [s2 t2]. simpl in B, F.
    exists s2, (t1 ++ t2). split; [reflexivity|]. split; [|exact F].
    apply button_ok_no_double_release with (selection_active self).
    exact (proj1 (button_step_trans _ _ _ _ _ E B)).
Qed.

(** The selection is active and the second hand changes from pointing to
    the peace sign: one mouse-up (followed, in the same frame, by a zoom). *)
Lemma C2_release_discipline_witness :
  (exists self' tr,
     process_frame (set_selection_active (init 0 1920 1080) true)
       [open_palm; peace_sign] 0 = Some (self', tr)
     /\ count is_mouse_up tr = 1%nat
     /\ selection_active self' = false)
  /\ (exists self',
        cleanup (set_selection_active (init 0 1920 1080) true)
        = (self', [MouseUp])
        /\ selection_active self' = false).
Proof.
  destruct C2_release_discipline as (F & C & _). split.
  - apply (F (set_selection_active (init 0 1920 1080) true) open_palm
             peace_sign 0); reflexivity.
  - apply (C (set_selection_active (init 0 1920 1080) true)). reflexivity.
Defined.

(** A selection is started by a two-hand frame; the next frame shows no
    hand, the one after a single hand.  Neither issues a mouse-up and the
    selection stays active: the release is made by the two-hand resolver
    only, and that one runs on two-hand frames only. *)
Lemma C2_fewer_hands_counterexample :
  exists self1 tr1 self2 tr2 self3 tr3,
    process_frame (init 0 1920 1080) [open_palm; pointing] 0
      = Some (self1, tr1)
    /\ selection_active self1 = true
    /\ qualifying_pose [] = false
    /\ process_frame self1 [] 1 = Some (self2, tr2)
    /\ count is_mouse_up tr2 = 0%nat
    /\ selection_active self2 = true
    /\ qualifying_pose [pointing] = false
    /\ process_frame self2 [pointing] 2 = Some (self3, tr3)
    /\ count is_mouse_up tr3 = 0%nat
    /\ selection_active self3 = true.
Proof.
  do 6 eexists.
  split; [vm_compute; reflexivity|].
  split; [vm_compute; reflexivity|].
  split; [reflexivity|].
  split; [vm_compute; reflexivity|].
  split; [vm_compute; reflexivity|].
  split; [vm_compute; reflexivity|].
  split; [vm_compute; reflexivity|].
  split; [vm_compute; reflexivity|].
  split; vm_compute; reflexivity.
Qed.

(** ** C1: one decision per frame *)

(** C1 (the program at a failing input).  [process_frame] runs the
    single-hand resolver once on a one-hand frame, but the two-hand
    resolver once for each of the two hands of a two-hand frame.  With an
    open palm and a peace sign the zoom-in chord is sent twice in one
    frame; with a selection active the same frame sends the release and
    then a zoom. *)
Theorem C1_two_hand_frame_resolves_twice :
  (forall (self : App) (h : Hand) (now : Q),
     process_frame self [h] now =
     match process_single_hand
             (entering (set_mode_message self "No hands detected") h
                "One hand") now with
     | Some (self', tr) => Some (self', tr ++ [])
     | None => None
     end)
  /\ (forall (self : App) (h1 h2 : Hand) (now : Q),
        process_frame self [h1; h2] now =
        match process_two_hands
                (entering (set_mode_message self "No hands detected") h1
                   "Two hands") [h1; h2] with
        | Some (self1, tr1) =>
          match process_two_hands (entering self1 h2 "Two hands") [h1; h2] with
          | Some (self2, tr2) => Some (self2, tr1 ++ tr2 ++ [])
          | None => None
          end
        | None => None
        end)
  /\ (exists self',
        process_frame (init 0 1920 1080) [open_palm; peace_sign] 0
        = Some (self', zoom_in ++ zoom_in))
  /\ (exists self',
        process_frame (set_selection_active (init 0 1920 1080) true)
          [open_palm; peace_sign] 0
        = Some (self', [MouseUp] ++ zoom_in)).
Proof.
  split; [exact process_frame_one_hand|].
  split; [exact process_frame_two_hands|].
  split; eexists; vm_compute; reflexivity.
Qed.

(** ** The click time *)

Lemma click_step_refl (now : Q) (self : App) : click_step now self self [].
Proof. split; [discriminate|reflexivity]. Qed.

Lemma click_step_trans (now : Q) (s1 s2 s3 : App) (t1 t2 : list Action) :
  click_step now s1 s2 t1 -> click_step now s2 s3 t2 ->
  click_step now s1 s3 (t1 ++ t2).
Proof.
  intros [C1 N1] [C2 N2]. unfold click_step. rewrite existsb_app.
  destruct (existsb is_click t1); destruct (existsb is_click t2); simpl.
  - destruct (C1 eq_refl) as [L1 E1]. destruct (C2 eq_refl) as [L2 E2].
    exfalso. rewrite E1 in L2. unfold CLICK_COOLDOWN in L2. lra.
  - split; [intros _|discriminate].
    destruct (C1 eq_refl) as [L1 E1]. split; [exact L1|].
    now rewrite (N2 eq_refl).
  - split; [intros _|discriminate].
    destruct (C2 eq_refl) as [L2 E2]. rewrite (N1 eq_refl) in L2. now split.
  - split; [discriminate|intros _].
    now rewrite (N2 eq_refl), (N1 eq_refl).
Qed.

Lemma single_hand_clicks (self self' : App) (now : Q) (tr : list Action) :
  process_single_hand self now = Some (self', tr) ->
  click_step now self self' tr.
Proof.
  unfold process_single_hand, click_step.
  destruct (attrs self) as [a|]; [|discriminate].
  intro H. injection H as H.
  case_ifs H; injection H as <- <-; simpl;
    (split; intro; try discriminate; try reflexivity);
    (split; [now apply cooled_down_spec|reflexivity]).
Qed.

Lemma two_hands_clicks (self self' : App) (multi : list Hand) (now : Q)
    (tr : list Action) :
  process_two_hands self multi = Some (self', tr) ->
  click_step now self self' tr.
Proof.
  intro H.
  assert (N : existsb is_click tr = false).
  { revert H. unfold process_two_hands.
    destruct multi as [|hand1 [|hand2 rest]]; try discriminate.
    intro H. injection H as H.
    destruct (selection_active self); simpl negb in H; cbv iota in H;
      case_ifs H; injection H as _ <-; reflexivity. }
  destruct (two_hands_writes _ _ _ _ H) as (b & m & ->).
  unfold click_step. rewrite N. split; [discriminate|reflexivity].
Qed.

Lemma for_each_hand_clicks (multi rest : list Hand) (now : Q)
    (self self' : App) (tr : list Action) :
  for_each_hand multi rest now self = Some (self', tr) ->
  click_step now self self' tr.
Proof.
  revert self self' tr.
  induction rest as [|h rest IH]; intros self self' tr; simpl.
  - intro H. injection H as <- <-. apply click_step_refl.
  - destruct (Nat.eqb (List.length multi) 1).
    + destruct (process_single_hand _ now) as [[s1 t1]|] eqn:E; [|discriminate].
      destruct (for_each_hand multi rest now s1) as [[s2 t2]|] eqn:E2;
        [|discriminate].
      intro H. injection H as <- <-.
      apply click_step_trans with s1; [|now apply IH].
      apply single_hand_clicks in E. exact E.
    + destruct (Nat.eqb (List.length multi) 2).
      * destruct (process_two_hands _ multi) as [[s1 t1]|] eqn:E;
          [|discriminate].
        destruct (for_each_hand multi rest now s1) as [[s2 t2]|] eqn:E2;
          [|discriminate].
        intro H. injection H as <- <-.
        apply click_step_trans with s1; [|now apply IH].
        apply (two_hands_clicks _ _ _ now) in E. exact E.
      * destruct (for_each_hand multi rest now _) as [[s2 t2]|] eqn:E2;
          [|discriminate].
        intro H. injection H as <- <-.
        apply IH in E2. exact E2.
Qed.

Lemma process_frame_clicks (self self' : App) (hands : list Hand) (now : Q)
    (tr : list Action) :
  process_frame self hands now = Some (self', tr) ->
  click_step now self self' tr.
Proof.
  unfold process_frame. destruct hands as [|h hands].
  - intro H. injection H as <- <-. split; [discriminate|reflexivity].
  - intro H. apply for_each_hand_clicks in H. exact H.
Qed.

(** The click time never goes back. *)
Lemma click_step_mono (now : Q) (self self' : App) (tr : list Action) :
  click_step now self self' tr -> last_click_time self <= last_click_time self'.
Proof.
  intros [C N]. destruct (existsb is_click tr).
  - destruct (C eq_refl) as [L E]. rewrite E. unfold CLICK_COOLDOWN in L. lra.
  - rewrite (N eq_refl). apply Qle_refl.
Qed.

(** Frames that come less than the cooldown after a time [t] at which the
    click time already stood do not click. *)
Lemma run_frames_quiet (frames : list Frame) :
  forall (self self' : App) (trs : list (list Action)) (t : Q),
    run_frames self frames = Some (self', trs) ->
    t <= last_click_time self ->
    forall (i : nat) (hands : list Hand) (now : Q) (tr : list Action),
      nth_error frames i = Some (hands, now) ->
      nth_error trs i = Some tr ->
      now - t < CLICK_COOLDOWN ->
      existsb is_click tr = false.
Proof.
  induction frames as [|[hands0 now0] frames IH];
    intros self self' trs t R T i hands now tr F A Q.
  - destruct i; discriminate F.
  - simpl in R.
    destruct (process_frame self hands0 now0) as [[s1 t1]|] eqn:E;
      [|discriminate].
    destruct (run_frames s1 frames) as [[s2 trs2]|] eqn:E2; [|discriminate].
    injection R as <- <-.
    apply process_frame_clicks in E.
    destruct i as [|i]; simpl in F, A.
    + injection F as <- <-. injection A as <-.
      destruct (existsb is_click t1) eqn:C; [|reflexivity].
      destruct (proj1 E C) as [L _]. exfalso. lra.
    + apply (IH s1 s2 trs2 t E2) with i hands now; trivial.
      apply Qle_trans with (last_click_time self); [exact T|].
      now apply click_step_mono in E.
Qed.

Lemma no_click_counts (tr : list Action) :
  existsb is_click tr = false ->
  count is_left_click tr = 0%nat /\ count is_right_click tr = 0%nat.
Proof.
  unfold count. induction tr as [|a tr IH]; [now split|].
  simpl. intro H. apply orb_false_elim in H as [A H].
  destruct (IH H) as [L R].
  destruct a as [| | | |[|]| | | | |]; simpl; try discriminate A; now split.
Qed.

Lemma open_hand_frame_step (self : App) (h : Hand) (now : Q) :
  all_extended (hand_attrs h) = true ->
  process_frame self [h] now =
  Some (if cooled_down self now
        then (set_status_message
                (set_last_click_time
                   (entering (set_mode_message self "No hands detected") h
                      "One hand") now) "Left Click",
              [Click LeftButton])
        else (entering (set_mode_message self "No hands detected") h
                "One hand", [])).
Proof.
  intro A. rewrite process_frame_one_hand.
  rewrite (single_all_extended
             (entering (set_mode_message self "No hands detected") h
                "One hand") (hand_attrs h) now eq_refl A).
  change (cooled_down (entering _ h _) now) with (cooled_down self now).
  destruct (cooled_down self now); reflexivity.
Qed.

Lemma spaced_from_le (t t' : Q) (frames : list Frame) :
  t' <= t -> spaced_from t frames -> spaced_from t' frames.
Proof.
  destruct frames as [|[hands now] frames]; [trivial|].
  simpl. intros L [S R]. split; [|exact R]. lra.
Qed.

(** A run over open-hand frames: every click comes at least the cooldown
    after the click time the run started with, and after every earlier
    click of the run. *)
Lemma open_frames_run (frames : list Frame) :
  Forall open_hand_frame frames ->
  forall self : App,
  exists self' trs,
    run_frames self frames = Some (self', trs)
    /\ List.length trs = List.length frames
    /\ Forall (fun tr => tr = [Click LeftButton] \/ tr = []) trs
    /\ Forall (fun t => last_click_time self + CLICK_COOLDOWN <= t)
         (left_click_times frames trs)
    /\ StronglySorted (fun a b => a + CLICK_COOLDOWN <= b)
         (left_click_times frames trs)
    /\ (spaced_from (last_click_time self) frames ->
        Forall (fun tr => tr = [Click LeftButton]) trs)
    /\ (spaced_after_first (last_click_time self) frames ->
        Forall (fun tr => tr = [Click LeftButton]) (tl trs)).
Proof.
  induction 1 as [|[hands now] frames (h & Hh & A) _ IH]; intro self.
  - exists self, []. repeat split; constructor.
  - simpl in Hh. subst hands. cbn [run_frames].
    rewrite (open_hand_frame_step self h now A).
    destruct (cooled_down self now) eqn:C.
    + match goal with
      | |- context [run_frames ?s frames] =>
        destruct (IH s) as (s2 & trs & R & Len & Sh & Lo & So & Sp & _);
          rewrite R
      end.
      simpl last_click_time in Lo, Sp.
      apply cooled_down_spec in C.
      exists s2, ([Click LeftButton] :: trs). simpl.
      split; [reflexivity|]. split; [now rewrite Len|].
      split; [constructor; [now left|exact Sh]|].
      split; [|split].
      * constructor; [exact C|].
        eapply Forall_impl; [|exact Lo]. simpl. intros t Ht.
        unfold CLICK_COOLDOWN in *. lra.
      * constructor; [exact So|exact Lo].
      * split.
        -- intros [_ S]. constructor; [reflexivity|now apply Sp].
        -- intros [_ S]. now apply Sp.
    + match goal with
      | |- context [run_frames ?s frames] =>
        destruct (IH s) as (s2 & trs & R & Len & Sh & Lo & So & Sp & _);
          rewrite R
      end.
      simpl last_click_time in Lo, Sp.
      exists s2, ([] :: trs). simpl.
      split; [reflexivity|]. split; [now rewrite Len|].
      split; [constructor; [now right|exact Sh]|].
      split; [exact Lo|]. split; [exact So|]. split.
      * intros [S _]. apply cooled_down_spec in S. congruence.
      * intros [T S]. apply Sp. now apply spaced_from_le with now.
Qed.

(** ** C4: debounce of the left click *)

(** C4.  On a one-hand frame showing the fully open hand a left click is
    issued exactly when at least 0.5 s have passed since the click time,
    which then becomes the frame's clock reading; otherwise nothing is
    issued and the click time stays.  Over any run of such frames every
    frame issues at most one left click, any two left clicks of the run are
    at least 0.5 s apart, and when every frame comes at least 0.5 s after
    the one before (the first after the click time) every frame issues
    exactly one left click; when the first frame is only known not to come
    before the click time, every frame after the first does. *)
Theorem C4_left_click_debounce :
  (forall (self : App) (h : Hand) (now : Q),
     all_extended (hand_attrs h) = true ->
     exists self' tr,
       process_frame self [h] now = Some (self', tr)
       /\ (5 # 10 <= now - last_click_time self ->
           tr = [Click LeftButton] /\ last_click_time self' = now)
       /\ (now - last_click_time self < 5 # 10 ->
           tr = [] /\ last_click_time self' = last_click_time self))
  /\ (forall (self : App) (frames : list Frame),
        Forall open_hand_frame frames ->
        exists self' trs,
          run_frames self frames = Some (self', trs)
          /\ List.length trs = List.length frames
          /\ Forall (fun tr => (count is_left_click tr <= 1)%nat) trs
          /\ StronglySorted (fun a b => a + (5 # 10) <= b)
               (left_click_times frames trs)
          /\ (spaced_from (last_click_time self) frames ->
              Forall (fun tr => tr = [Click LeftButton]) trs)
          /\ (spaced_after_first (last_click_time self) frames ->
              Forall (fun tr => tr = [Click LeftButton]) (tl trs))).
Proof.
  split.
  - intros self h now A. rewrite (open_hand_frame_step self h now A).
    destruct (cooled_down self now) eqn:C; eexists _, _;
      (split; [reflexivity|]); split; intro L.
    + now split.
    + apply cooled_down_spec in C. unfold CLICK_COOLDOWN in C. lra.
    + assert (C' : cooled_down self now = true).
      { apply cooled_down_spec. unfold CLICK_COOLDOWN. lra. }
      congruence.
    + now split.
  - intros self frames F.
    destruct (open_frames_run frames F self)
      as (s2 & trs & R & Len & Sh & _ & So & Sp & Sa).
    exists s2, trs. repeat split; trivial.
    eapply Forall_impl; [|exact Sh].
    intros tr [-> | ->]; unfold count; simpl; lia.
Qed.

(** The object is made at time 0 and the open palm is shown at 1.0 s,
    1.5 s and 2.0 s: a left click on every frame. *)
Lemma C4_left_click_debounce_witness :
  (exists self' tr,
     process_frame (init 0 1920 1080) [open_palm] 1 = Some (self', tr)
     /\ (5 # 10 <= 1 - last_click_time (init 0 1920 1080) ->
         tr = [Click LeftButton] /\ last_click_time self' = 1)
     /\ (1 - last_click_time (init 0 1920 1080) < 5 # 10 ->
         tr = [] /\ last_click_time self' = last_click_time (init 0 1920 1080)))
  /\ (exists self' trs,
        run_frames (init 0 1920 1080)
          [([open_palm], 1); ([open_palm], 15 # 10); ([open_palm], 2)]
        = Some (self', trs)
        /\ List.length trs = 3%nat
        /\ Forall (fun tr => tr = [Click LeftButton]) trs).
Proof.
  destruct C4_left_click_debounce as (S & R). split.
  - apply (S (init 0 1920 1080) open_palm 1). reflexivity.
  - destruct (R (init 0 1920 1080)
                [([open_palm], 1); ([open_palm], 15 # 10); ([open_palm], 2)])
      as (s & trs & E & Len & _ & _ & Sp & _).
    + repeat constructor; exists open_palm; split; reflexivity.
    + exists s, trs. split; [exact E|]. split; [exact Len|].
      apply Sp. simpl. unfold Qle. simpl. repeat split; lia.
Defined.

(** ** C9: the click time is shared and starts at construction *)

(** C9.  From the freshly constructed object, whatever frames follow, a
    frame whose clock reading is less than 0.5 s after construction issues
    no left and no right click.  After a frame that issued a click of
    either button at time [t1], whatever frames follow, a frame whose clock
    reading is less than 0.5 s after [t1] issues no left and no right
    click.  Every such run returns. *)
Theorem C9_click_suppression :
  (forall (self : App) (frames : list Frame),
     exists self' trs, run_frames self frames = Some (self', trs))
  /\ (forall (t0 : Q) (w h : Z) (frames : list Frame) (self' : App)
        (trs : list (list Action)) (i : nat) (hands : list Hand) (now : Q)
        (tr : list Action),
        run_frames (init t0 w h) frames = Some (self', trs) ->
        nth_error frames i = Some (hands, now) ->
        nth_error trs i = Some tr ->
        now - t0 < 5 # 10 ->
        count is_left_click tr = 0%nat /\ count is_right_click tr = 0%nat)
  /\ (forall (self self1 self2 : App) (hands1 : list Hand) (t1 : Q)
        (tr1 : list Action) (frames : list Frame) (trs : list (list Action))
        (i : nat) (hands : list Hand) (now : Q) (tr : list Action),
        process_frame self hands1 t1 = Some (self1, tr1) ->
        existsb is_click tr1 = true ->
        run_frames self1 frames = Some (self2, trs) ->
        nth_error frames i = Some (hands, now) ->
        nth_error trs i = Some tr ->
        now - t1 < 5 # 10 ->
        count is_left_click tr = 0%nat /\ count is_right_click tr = 0%nat).
Proof.
  split; [exact run_frames_total|]. split.
  - intros t0 w h frames self' trs i hands now tr R F A L.
    apply no_click_counts.
    apply (run_frames_quiet frames (init t0 w h) self' trs t0 R)
      with i hands now; trivial.
    apply Qle_refl.
  - intros self self1 self2 hands1 t1 tr1 frames trs i hands now tr P C R F A L.
    apply no_click_counts.
    apply (run_frames_quiet frames self1 self2 trs t1 R) with i hands now;
      trivial.
    apply process_frame_clicks in P. destruct (proj1 P C) as [_ E].
    rewrite E. apply Qle_refl.
Qed.

(** The object is made at time 0.  An open palm at 0.2 s does not click.
    At 1.0 s it clicks left; a pinch at 1.3 s does not click right. *)
Lemma C9_click_suppression_witness :
  match run_frames (init 0 1920 1080) [([open_palm], 2 # 10)] with
  | Some (_, [tr]) =>
    count is_left_click tr = 0%nat /\ count is_right_click tr = 0%nat
  | _ => False
  end
  /\ match process_frame (init 0 1920 1080) [open_palm] 1 with
     | Some (self1, tr1) =>
       tr1 = [Click LeftButton]
       /\ match run_frames self1 [([fist], 13 # 10)] with
          | Some (_, [tr]) =>
            count is_left_click tr = 0%nat /\ count is_right_click tr = 0%nat
          | _ => False
          end
     | None => False
     end.
Proof.
  destruct C9_click_suppression as (_ & A & B). split.
  - exact (A 0 1920%Z 1080%Z [([open_palm], 2 # 10)]
             (entering (set_mode_message (init 0 1920 1080) "No hands detected")
                open_palm "One hand")
             [[]] 0%nat [open_palm] (2 # 10) []
             eq_refl eq_refl eq_refl eq_refl).
  - split; [reflexivity|].
    exact (B (init 0 1920 1080)
             (set_status_message
                (set_last_click_time
                   (entering
                      (set_mode_message (init 0 1920 1080) "No hands detected")
                      open_palm "One hand") 1) "Left Click")
             (entering
                (set_mode_message
                   (set_status_message
                      (set_last_click_time
                         (entering
                            (set_mode_message (init 0 1920 1080)
                               "No hands detected")
                            open_palm "One hand") 1) "Left Click")
                   "No hands detected")
                fist "One hand")
             [open_palm] 1 [Click LeftButton] [([fist], 13 # 10)]
             [[]] 0%nat [fist] (13 # 10) []
             eq_refl eq_refl eq_refl eq_refl eq_refl eq_refl).
Defined.

(** * Further properties *)

(** ** Invariants of a run *)

Lemma same_session_refl (s : App) : same_session s s.
Proof. repeat split. Qed.

Lemma same_session_entering (s : App) (h : Hand) (m : string) :
  same_session s (entering s h m).
Proof. repeat split. Qed.

Lemma same_session_toggle_pause (s : App) : same_session s (toggle_pause s).
Proof.
  unfold toggle_pause. simpl. destruct (negb (paused s)); repeat split.
Qed.

Lemma same_session_tray (s : App) (i : option TrayItem) :
  same_session s (match i with Some i => tray_callback s i | None => s end).
Proof.
  destruct i as [[| |]|]; simpl; try (repeat split; fail).
  apply same_session_toggle_pause.
Qed.

Lemma same_session_trans (s1 s2 s3 : App) :
  same_session s1 s2 -> same_session s2 s3 -> same_session s1 s3.
Proof.
  unfold same_session. intros (A1 & A2 & A3 & A4 & A5) (B1 & B2 & B3 & B4 & B5).
  repeat split; congruence.
Qed.

(** A relation between the state before, the state after and the commands
    issued that holds of both resolvers, of every step that leaves the
    session alone, and of two steps in a row, holds of the frame loop, of
    the main loop and, if [cleanup] has it, of [start]. *)
Section RunInvariant.

Variable I : App -> App -> list Action -> Prop.

Hypothesis I_quiet : forall s s', same_session s s' -> I s s' [].
Hypothesis I_trans : forall s1 s2 s3 t1 t2,
    I s1 s2 t1 -> I s2 s3 t2 -> I s1 s3 (t1 ++ t2).
Hypothesis I_single : forall s s' now tr,
    process_single_hand s now = Some (s', tr) -> I s s' tr.
Hypothesis I_two : forall s s' multi tr,
    process_two_hands s multi = Some (s', tr) -> I s s' tr.

Lemma I_after_quiet (s1 s2 s3 : App) (tr : list Action) :
  same_session s1 s2 -> I s2 s3 tr -> I s1 s3 tr.
Proof.
  intros Q H. exact (I_trans _ _ _ _ _ (I_quiet _ _ Q) H).
Qed.

Lemma for_each_hand_inv (multi rest : list Hand) (now : Q)
    (self self' : App) (tr : list Action) :
  for_each_hand multi rest now self = Some (self', tr) -> I self self' tr.
Proof.
  revert self self' tr.
  induction rest as [|h rest IH]; intros self self' tr; simpl.
  - intro H. injection H as <- <-. apply I_quiet, same_session_refl.
  - destruct (Nat.eqb (List.length multi) 1).
    + destruct (process_single_hand _ now) as [[s1 t1]|] eqn:E;
        [|discriminate].
      destruct (for_each_hand multi rest now s1) as [[s2 t2]|] eqn:E2;
        [|discriminate].
      intro H. injection H as <- <-.
      apply I_trans with s1; [|now apply IH].
      apply I_after_quiet with (entering self h "One hand");
        [apply same_session_entering|].
      now apply I_single in E.
    + destruct (Nat.eqb (List.length multi) 2).
      * destruct (process_two_hands _ multi) as [[s1 t1]|] eqn:E;
          [|discriminate].
        destruct (for_each_hand multi rest now s1) as [[s2 t2]|] eqn:E2;
          [|discriminate].
        intro H. injection H as <- <-.
        apply I_trans with s1; [|now apply IH].
        apply I_after_quiet with (entering self h "Two hands");
          [apply same_session_entering|].
        now apply I_two in E.
      * destruct (for_each_hand multi rest now _) as [[s2 t2]|] eqn:E2;
          [|discriminate].
        intro H. injection H as <- <-.
        apply I_after_quiet with (extract_landmarks self h);
          [repeat split|].
        now apply IH.
Qed.

Lemma process_frame_inv (self self' : App) (hands : list Hand) (now : Q)
    (tr : list Action) :
  process_frame self hands now = Some (self', tr) -> I self self' tr.
Proof.
  unfold process_frame. destruct hands as [|h hands].
  - intro H. injection H as <- <-. apply I_quiet. repeat split.
  - intro H. apply for_each_hand_inv in H.
    apply I_after_quiet with (set_mode_message self "No hands detected");
      [repeat split|exact H].
Qed.

Lemma main_loop_inv (ticks : list Tick) (self self' : App)
    (tr : list Action) :
  main_loop ticks self = Some (self', tr) -> I self self' tr.
Proof.
  revert self self' tr.
  induction ticks as [|t ticks IH]; intros self self' tr; simpl.
  - intro H. injection H as <- <-. apply I_quiet, same_session_refl.
  - set (s0 := match tray t with
               | Some i => tray_callback self i
               | None => self
               end).
    assert (S0 : same_session self s0) by apply same_session_tray.
    set (s1 := if Z.eqb (Z.land (key t) 255) ord_p
               then toggle_pause s0 else s0).
    assert (S1 : same_session self s1).
    { apply same_session_trans with s0; [exact S0|]. subst s1.
      destruct (Z.eqb _ ord_p);
        [apply same_session_toggle_pause|apply same_session_refl]. }
    clearbody s1 s0.
    destruct (running s0 && cam_opened t).
    2:{ intro H. injection H as <- <-. now apply I_quiet. }
    destruct (Z.eqb (Z.land (key t) 255) ord_q).
    { intro H. injection H as <- <-. now apply I_quiet. }
    destruct (paused s1).
    { intro H. apply I_after_quiet with s1; [exact S1|now apply IH]. }
    destruct (capture t) as [hands|].
    2:{ intro H. apply I_after_quiet with s1; [exact S1|now apply IH]. }
    destruct (process_frame s1 hands (clock t)) as [[s2 t2]|] eqn:E;
      [|discriminate].
    destruct (main_loop ticks s2) as [[s3 t3]|] eqn:E3; [|discriminate].
    intro H. injection H as <- <-.
    apply I_after_quiet with s1; [exact S1|].
    apply I_trans with s2; [|now apply IH].
    now apply process_frame_inv in E.
Qed.

Hypothesis I_cleanup : forall s, I s (fst (cleanup s)) (snd (cleanup s)).

Lemma start_inv (self : App) (ticks : list Tick) :
  exists self' tr, start self ticks = Some (self', tr) /\ I self self' tr.
Proof.
  unfold start.
  destruct (main_loop_total ticks (set_running self true)) as (s1 & t1 & E).
  rewrite E. apply main_loop_inv in E.
  assert (C := I_cleanup s1). destruct (cleanup s1) as [s2 t2]. simpl in C.
  exists s2, (t1 ++ t2). split; [reflexivity|].
  apply I_after_quiet with (set_running self true); [repeat split|].
  now apply I_trans with s1.
Qed.

End RunInvariant.

(** ** The control key *)

Lemma ctrl_run_app (t1 t2 : list Action) :
  forall down down' : bool,
    ctrl_run down t1 = Some down' ->
    ctrl_run down (t1 ++ t2) = ctrl_run down' t2.
Proof.
  induction t1 as [|a t1 IH]; intros down down' H; simpl in *.
  - now injection H as <-.
  - destruct a; try (destruct down; [discriminate|now apply IH]).
    + destruct (String.eqb k "ctrl" && negb down); [now apply IH|discriminate].
    + destruct down; [now apply IH|discriminate].
    + destruct (String.eqb k "ctrl" && down); [now apply IH|discriminate].
Qed.

Lemma single_hand_ctrl (s s' : App) (now : Q) (tr : list Action) :
  process_single_hand s now = Some (s', tr) -> ctrl_run false tr = Some false.
Proof.
  unfold process_single_hand. destruct (attrs s) as [a|]; [|discriminate].
  intro H. injection H as H. case_ifs H; injection H as _ <-; reflexivity.
Qed.

Lemma two_hands_ctrl (s s' : App) (multi : list Hand) (tr : list Action) :
  process_two_hands s multi = Some (s', tr) -> ctrl_run false tr = Some false.
Proof.
  unfold process_two_hands.
  destruct multi as [|hand1 [|hand2 rest]]; try discriminate.
  intro H. injection H as H.
  destruct (selection_active s); simpl negb in H; cbv iota in H;
    case_ifs H; injection H as _ <-; reflexivity.
Qed.

Lemma cleanup_ctrl (s : App) : ctrl_run false (snd (cleanup s)) = Some false.
Proof. unfold cleanup. destruct (selection_active s); reflexivity. Qed.

(** X1.  In every run of [start] the control key is pressed and released
    in turn and is up at the end; a [press] is issued only while it is
    held and every mouse command only while it is not.  The same holds of
    the main loop whenever it stops. *)
Theorem ctrl_key_never_left_down (self : App) (ticks : list Tick) :
  (exists self' tr,
     main_loop ticks self = Some (self', tr) /\ ctrl_run false tr = Some false)
  /\ (exists self' tr,
        start self ticks = Some (self', tr) /\ ctrl_run false tr = Some false).
Proof.
  pose (I := fun (_ _ : App) (tr : list Action) =>
               ctrl_run false tr = Some false).
  assert (Q : forall s s', same_session s s' -> I s s' []) by reflexivity.
  assert (T : forall s1 s2 s3 t1 t2,
             I s1 s2 t1 -> I s2 s3 t2 -> I s1 s3 (t1 ++ t2)).
  { unfold I. intros _ _ _ t1 t2 H1 H2.
    now rewrite (ctrl_run_app t1 t2 false false H1). }
  split.
  - destruct (main_loop_total ticks self) as (s1 & t1 & E).
    exists s1, t1. split; [exact E|].
    exact (main_loop_inv I Q T single_hand_ctrl two_hands_ctrl ticks _ _ _ E).
  - apply (start_inv I Q T single_hand_ctrl two_hands_ctrl).
    intro s. apply cleanup_ctrl.
Qed.

(** ** Attributes that no run writes *)

(** X2.  Whatever the inputs, a run of [start] from the constructed object
    ends with the screen size it was constructed with and with
    [selection_start] still [None]: the start point of a selection is
    never stored. *)
Theorem selection_start_never_written (t0 : Q) (w h : Z) (ticks : list Tick) :
  exists self' tr,
    start (init t0 w h) ticks = Some (self', tr)
    /\ selection_start self' = None
    /\ screen_width self' = w
    /\ screen_height self' = h.
Proof.
  pose (I := fun (s s' : App) (_ : list Action) =>
               selection_start s' = selection_start s
               /\ screen_width s' = screen_width s
               /\ screen_height s' = screen_height s).
  destruct (start_inv I) with (self := init t0 w h) (ticks := ticks)
    as (s' & tr & E & S & W & H).
  - intros s s' (_ & A & B & _ & C). now repeat split.
  - unfold I. intros s1 s2 s3 _ _ (A1 & A2 & A3) (B1 & B2 & B3).
    repeat split; congruence.
  - intros s s' now tr P.
    destruct (single_hand_writes _ _ _ _ P) as (t & m & ->). now repeat split.
  - intros s s' multi tr P.
    destruct (two_hands_writes _ _ _ _ P) as (b & m & ->). now repeat split.
  - intro s. unfold cleanup. destruct (selection_active s); now repeat split.
  - exists s', tr. now repeat split.
Qed.

(** ** The mouse button over a run *)

(** X3.  In every run of the main loop a mouse-down is issued only while
    the button is up and a mouse-up only while it is down, the button
    being down at the start exactly when a selection is active; when the
    loop stops the selection flag says whether the button is down, and
    after [start] (loop, then [cleanup]) the button is up. *)
Theorem button_follows_selection (self : App) (ticks : list Tick) :
  (exists self' tr,
     main_loop ticks self = Some (self', tr)
     /\ button_ok (selection_active self) tr = true
     /\ button_after (selection_active self) tr = selection_active self')
  /\ (exists self' tr,
        start self ticks = Some (self', tr)
        /\ button_ok (selection_active self) tr = true
        /\ button_after (selection_active self) tr = false).
Proof.
  split.
  - destruct (main_loop_total ticks self) as (s1 & t1 & E).
    exists s1, t1. split; [exact E|]. now apply main_loop_button in E.
  - unfold start.
    destruct (main_loop_total ticks (set_running self true)) as (s1 & t1 & E).
    rewrite E. apply main_loop_button in E.
    destruct (cleanup_button s1) as [B F].
    destruct (cleanup s1) as [s2 t2]. simpl in B, F.
    exists s2, (t1 ++ t2). split; [reflexivity|].
    destruct (button_step_trans _ _ _ _ _ E B) as [O A].
    split; [exact O|]. now rewrite <- F.
Qed.

(** ** What a one-hand frame issues *)

Lemma single_hand_dispatch (self : App) (a : HandAttrs) (now : Q) :
  attrs self = Some a ->
  exists self' tr,
    process_single_hand self now = Some (self', tr)
    /\ existsb is_move tr = only_index a
    /\ existsb is_scroll tr = index_and_middle a || index_and_little a
    /\ existsb is_left_click tr = all_extended a && cooled_down self now
    /\ existsb is_right_click tr
       = negb (finger_pattern a) && pinch a && cooled_down self now
    /\ last_click_time self'
       = (if existsb is_click tr then now else last_click_time self)
    /\ (List.length tr <= 1)%nat
    /\ existsb is_mouse_down tr = false
    /\ existsb is_mouse_up tr = false
    /\ existsb is_key tr = false.
Proof.
  intro A. unfold process_single_hand. rewrite A.
  unfold finger_pattern, only_index, index_and_middle, index_and_little,
    all_extended. simpl forallb.
  destruct (thumb_extended a), (index_extended a), (middle_extended a),
    (ring_extended a), (little_extended a); simpl;
    repeat match goal with
           | |- context [if ?c then _ else _] => destruct c
           end;
    eexists _, _; (split; [reflexivity|]); simpl; repeat split; lia.
Qed.


(** ** Horizontal scroll *)

Lemma index_and_little_excl (a : HandAttrs) :
  index_and_little a = true ->
  only_index a = false /\ index_and_middle a = false.
Proof.
  unfold index_and_middle, index_and_little, only_index.
  destruct (index_extended a), (middle_extended a), (ring_extended a),
    (little_extended a); simpl; intuition congruence.
Qed.

Lemma single_index_and_little (self : App) (a : HandAttrs) (now : Q) :
  attrs self = Some a -> index_and_little a = true ->
  process_single_hand self now =
  Some (if Qltb (5 # 10) (average64 (x (index_tip a)) (x (little_tip a)))
        then (set_status_message self "Scrolling Right", [HScroll 50])
        else (set_status_message self "Scrolling Left", [HScroll (-50)])).
Proof.
  intros A L. unfold process_single_hand.
  destruct (index_and_little_excl a L) as [E1 E2].
  now rewrite A, E1, E2, L.
Qed.

(** X5.  On a one-hand frame with index and little finger extended and
    middle and ring not, the one command is a horizontal scroll of 50:
    to the right when the average of the index-tip and little-tip x, as
    the program computes it (the binary64 sum, halved), is strictly above
    0.5, to the left ([-50]) when it is at most 0.5; the status message
    says which. *)
Theorem horizontal_scroll_direction (self : App) (h : Hand) (now : Q) :
  index_and_little (hand_attrs h) = true ->
  (5 # 10 < average64 (x (h INDEX_FINGER_TIP)) (x (h PINKY_TIP)) ->
   exists self',
     process_frame self [h] now = Some (self', [HScroll 50])
     /\ status_message self' = "Scrolling Right"%string)
  /\ (average64 (x (h INDEX_FINGER_TIP)) (x (h PINKY_TIP)) <= 5 # 10 ->
      exists self',
        process_frame self [h] now = Some (self', [HScroll (-50)])
        /\ status_message self' = "Scrolling Left"%string).
Proof.
  intro L.
  assert (E := single_index_and_little
                 (entering (set_mode_message self "No hands detected") h
                    "One hand") (hand_attrs h) now eq_refl L).
  change (x (index_tip (hand_attrs h))) with (x (h INDEX_FINGER_TIP)) in E.
  change (x (little_tip (hand_attrs h))) with (x (h PINKY_TIP)) in E.
  rewrite process_frame_one_hand, E. clear E.
  split; intro A.
  - apply Qltb_lt in A. rewrite A. eexists. split; reflexivity.
  - apply Qltb_ge in A. rewrite A. eexists. split; reflexivity.
Qed.

Lemma horizontal_scroll_direction_witness :
  (exists self',
     process_frame (init 0 1920 1080) [horns_right] 0
     = Some (self', [HScroll 50])
     /\ status_message self' = "Scrolling Right"%string)
  /\ (exists self',
        process_frame (init 0 1920 1080) [horns_left] 0
        = Some (self', [HScroll (-50)])
        /\ status_message self' = "Scrolling Left"%string).
Proof.
  split.
  - apply (horizontal_scroll_direction (init 0 1920 1080) horns_right 0
             eq_refl).
    vm_compute. reflexivity.
  - apply (horizontal_scroll_direction (init 0 1920 1080) horns_left 0
             eq_refl).
    vm_compute. discriminate.
Defined.

(** ** Zoom *)

Lemma index_middle_not_only (h2 : Hand) :
  hand2_index_middle h2 = true -> hand2_index_only h2 = false.
Proof.
  unfold hand2_index_middle, hand2_index_only. intro H.
  apply andb_prop in H as [H _]. apply andb_prop in H as [H _].
  apply andb_prop in H as [I M]. rewrite I, (Qltb_asym _ _ M). reflexivity.
Qed.

Lemma two_hands_zoom (self : App) (h1 h2 : Hand) :
  selection_active self = false ->
  hand1_all_extended h1 = true ->
  hand2_index_middle h2 = true ->
  process_two_hands self [h1; h2] =
  Some (set_status_message self
          (if Qltb (average64 (y (h2 INDEX_FINGER_TIP))
                             (y (h2 MIDDLE_FINGER_TIP)))
                (5 # 10)
           then "Zoom In" else "Zoom Out"),
        zoom_chord h2).
Proof.
  intros S A M. unfold process_two_hands, zoom_chord.
  rewrite A, (index_middle_not_only h2 M), S, M. simpl.
  destruct (Qltb _ _); reflexivity.
Qed.

(** X6.  With no selection active, the first hand open and the second
    showing index and middle up, ring and little down, the two-hand
    resolver sends one control-key chord: zoom in ([+]) when the average
    of the second hand's index-tip and middle-tip y, as the program
    computes it (the binary64 sum, halved), is strictly below 0.5, zoom
    out ([-]) when it is 0.5 or more.  Nothing delays it: whatever the
    clock and the click time, a frame with this pose sends the chord once
    per hand, twice in all. *)
Theorem zoom_direction_and_repeat (self : App) (h1 h2 : Hand) :
  selection_active self = false ->
  hand1_all_extended h1 = true ->
  hand2_index_middle h2 = true ->
  (average64 (y (h2 INDEX_FINGER_TIP)) (y (h2 MIDDLE_FINGER_TIP)) < 5 # 10 ->
   exists self',
     process_two_hands self [h1; h2] = Some (self', zoom_in)
     /\ status_message self' = "Zoom In"%string)
  /\ (5 # 10 <= average64 (y (h2 INDEX_FINGER_TIP)) (y (h2 MIDDLE_FINGER_TIP)) ->
      exists self',
        process_two_hands self [h1; h2] = Some (self', zoom_out)
        /\ status_message self' = "Zoom Out"%string)
  /\ (forall now : Q,
        exists self',
          process_frame self [h1; h2] now
          = Some (self', zoom_chord h2 ++ zoom_chord h2)
          /\ selection_active self' = false
          /\ last_click_time self' = last_click_time self).
Proof.
  intros S A M. split; [|split].
  - intro L. rewrite (two_hands_zoom self h1 h2 S A M). unfold zoom_chord.
    apply Qltb_lt in L. rewrite L. eexists. split; reflexivity.
  - intro L. rewrite (two_hands_zoom self h1 h2 S A M). unfold zoom_chord.
    apply Qltb_ge in L. rewrite L. eexists. split; reflexivity.
  - intro now. rewrite process_frame_two_hands.
    rewrite (two_hands_zoom
               (entering (set_mode_message self "No hands detected") h1
                  "Two hands") h1 h2 S A M).
    match goal with
    | |- context [process_two_hands ?s [h1; h2]] =>
      rewrite (two_hands_zoom s h1 h2 S A M)
    end.
    rewrite app_nil_r. eexists. split; [reflexivity|]. split; [exact S|].
    reflexivity.
Qed.

Lemma zoom_direction_and_repeat_witness :
  (exists self',
     process_two_hands (init 0 1920 1080) [open_palm; peace_sign]
     = Some (self', zoom_in)
     /\ status_message self' = "Zoom In"%string)
  /\ (exists self',
        process_two_hands (init 0 1920 1080) [open_palm; mid_peace_sign]
        = Some (self', zoom_out)
        /\ status_message self' = "Zoom Out"%string).
Proof.
  split.
  - destruct (zoom_direction_and_repeat (init 0 1920 1080) open_palm
                peace_sign eq_refl eq_refl eq_refl) as (I & _ & _).
    apply I. vm_compute. reflexivity.
  - destruct (zoom_direction_and_repeat (init 0 1920 1080) open_palm
                mid_peace_sign eq_refl eq_refl eq_refl) as (_ & O & _).
    apply O. vm_compute. discriminate.
Defined.

(** The zoom average is the rounded one as well.  With the second hand's
    index tip at 0.5 and its middle tip at the next float below, the exact
    average is below 0.5, but the binary64 sum is 1 and the program zooms
    out. *)
Lemma rounded_average_zooms_out :
  hand2_index_middle just_below_half = true
  /\ (y (just_below_half INDEX_FINGER_TIP)
      + y (just_below_half MIDDLE_FINGER_TIP)) / 2 < 5 # 10
  /\ average64 (y (just_below_half INDEX_FINGER_TIP))
       (y (just_below_half MIDDLE_FINGER_TIP)) == 5 # 10
  /\ exists self',
       process_two_hands (init 0 1920 1080) [open_palm; just_below_half]
       = Some (self', zoom_out).
Proof.
  split; [reflexivity|]. split; [vm_compute; reflexivity|].
  split; [vm_compute; reflexivity|].
  eexists. vm_compute. reflexivity.
Qed.

(** X7.  With a selection active, the same pose does not zoom in the
    resolver: the call releases the button and ends the selection.  In a
    frame the resolver runs a second time, now with no selection, and that
    run zooms: the frame sends the mouse-up followed by one chord. *)
Theorem release_before_zoom (self : App) (h1 h2 : Hand) :
  selection_active self = true ->
  hand1_all_extended h1 = true ->
  hand2_index_middle h2 = true ->
  (exists self',
     process_two_hands self [h1; h2] = Some (self', [MouseUp])
     /\ selection_active self' = false
     /\ status_message self' = "Text Selection Completed"%string)
  /\ (forall now : Q,
        exists self',
          process_frame self [h1; h2] now
          = Some (self', MouseUp :: zoom_chord h2)
          /\ selection_active self' = false).
Proof.
  intros S A M.
  assert (P : hand1_all_extended h1 && hand2_index_only h2 = false).
  { rewrite (index_middle_not_only h2 M). apply andb_false_r. }
  split.
  - rewrite (two_hands_release self h1 h2 S P).
    eexists. repeat split.
  - intro now. rewrite process_frame_two_hands.
    rewrite (two_hands_release
               (entering (set_mode_message self "No hands detected") h1
                  "Two hands") h1 h2 S P).
    match goal with
    | |- context [process_two_hands ?s [h1; h2]] =>
      rewrite (two_hands_zoom s h1 h2 eq_refl A M)
    end.
    rewrite app_nil_r. eexists. split; reflexivity.
Qed.

Lemma release_before_zoom_witness :
  (exists self',
     process_two_hands (set_selection_active (init 0 1920 1080) true)
       [open_palm; peace_sign] = Some (self', [MouseUp])
     /\ selection_active self' = false
     /\ status_message self' = "Text Selection Completed"%string)
  /\ (exists self',
        process_frame (set_selection_active (init 0 1920 1080) true)
          [open_palm; peace_sign] 0
        = Some (self', [MouseUp; KeyDown "ctrl"; Press "+"; KeyUp "ctrl"])
        /\ selection_active self' = false).
Proof.
  destruct (release_before_zoom (set_selection_active (init 0 1920 1080) true)
              open_palm peace_sign eq_refl eq_refl eq_refl) as [R F].
  split; [exact R|exact (F 0)].
Defined.

(** ** Frames by number of hands *)

Lemma for_each_hand_many (multi rest : list Hand) (now : Q) :
  (3 <= List.length multi)%nat ->
  forall self : App,
  exists self',
    for_each_hand multi rest now self = Some (self', [])
    /\ same_session self self'
    /\ status_message self' = status_message self
    /\ mode_message self' = mode_message self.
Proof.
  intro L.
  assert (L1 : Nat.eqb (List.length multi) 1 = false)
    by (apply Nat.eqb_neq; lia).
  assert (L2 : Nat.eqb (List.length multi) 2 = false)
    by (apply Nat.eqb_neq; lia).
  induction rest as [|h rest IH]; intro self; simpl.
  - exists self. repeat split.
  - rewrite L1, L2.
    destruct (IH (extract_landmarks self h)) as (s' & E & S & M & D).
    rewrite E. exists s'. split; [reflexivity|].
    split; [exact S|]. split; [exact M|exact D].
Qed.

Lemma two_hands_kinds (self self' : App) (multi : list Hand)
    (tr : list Action) :
  process_two_hands self multi = Some (self', tr) ->
  existsb is_click tr = false /\ existsb is_scroll tr = false
  /\ (List.length tr <= 3)%nat.
Proof.
  unfold process_two_hands.
  destruct multi as [|hand1 [|hand2 rest]]; try discriminate.
  intro H. injection H as H.
  destruct (selection_active self); simpl negb in H; cbv iota in H;
    case_ifs H; injection H as _ <-; simpl; repeat split; lia.
Qed.

(** X8.  A two-hand frame never clicks and never scrolls, whatever the two
    hands show, and leaves the click time as it was; it issues at most six
    commands. *)
Theorem two_hand_frame_never_clicks (self : App) (h1 h2 : Hand) (now : Q) :
  exists self' tr,
    process_frame self [h1; h2] now = Some (self', tr)
    /\ existsb is_click tr = false
    /\ existsb is_scroll tr = false
    /\ last_click_time self' = last_click_time self
    /\ (List.length tr <= 6)%nat.
Proof.
  rewrite process_frame_two_hands.
  match goal with
  | |- context [process_two_hands ?s [h1; h2]] =>
    destruct (process_two_hands_total s h1 h2) as (s1 & t1 & E1)
  end.
  rewrite E1.
  destruct (process_two_hands_total (entering s1 h2 "Two hands") h1 h2)
    as (s2 & t2 & E2).
  rewrite E2. exists s2, (t1 ++ t2 ++ []). split; [reflexivity|].
  destruct (two_hands_kinds _ _ _ _ E1) as (C1 & S1 & N1).
  destruct (two_hands_kinds _ _ _ _ E2) as (C2 & S2 & N2).
  destruct (two_hands_writes _ _ _ _ E1) as (b1 & m1 & ->).
  destruct (two_hands_writes _ _ _ _ E2) as (b2 & m2 & ->).
  rewrite app_nil_r, !existsb_app, C1, C2, S1, S2, length_app.
  repeat split. lia.
Qed.

(** X9.  A frame that does not show exactly two hands issues no mouse-down
    and no mouse-up and leaves the selection flag as it was: a selection
    that is active stays active, with the button held, for as long as
    fewer than two hands are seen. *)
Theorem selection_kept_without_two_hands (self : App) (hands : list Hand)
    (now : Q) :
  List.length hands <> 2%nat ->
  exists self' tr,
    process_frame self hands now = Some (self', tr)
    /\ selection_active self' = selection_active self
    /\ existsb is_mouse_down tr = false
    /\ existsb is_mouse_up tr = false.
Proof.
  intro L. destruct hands as [|h1 [|h2 [|h3 hands]]].
  - eexists _, _. repeat split.
  - assert (F := process_frame_one_hand self h1 now).
    destruct (single_hand_dispatch
                (entering (set_mode_message self "No hands detected") h1
                   "One hand") (hand_attrs h1) now eq_refl)
      as (s' & tr & E0 & _ & _ & _ & _ & _ & _ & D & U & _).
    rewrite E0, app_nil_r in F. clear E0. rename F into E.
    exists s', tr. repeat split; trivial.
    apply process_frame_button in E. destruct E as [_ E].
    rewrite <- E. clear E L.
    induction tr as [|a tr IH]; [reflexivity|].
    simpl in D, U. apply orb_false_elim in D as [D1 D].
    apply orb_false_elim in U as [U1 U].
    destruct a; try discriminate; simpl; now apply IH.
  - now contradiction L.
  - unfold process_frame.
    destruct (for_each_hand_many (h1 :: h2 :: h3 :: hands)
                (h1 :: h2 :: h3 :: hands) now)
      with (self := set_mode_message self "No hands detected")
      as (s' & E & (_ & _ & _ & S & _) & _); [simpl; lia|].
    rewrite E. exists s', []. repeat split. exact S.
Qed.

Lemma selection_kept_without_two_hands_witness :
  exists self' tr,
    process_frame (set_selection_active (init 0 1920 1080) true) [pointing] 0
    = Some (self', tr)
    /\ selection_active self'
       = selection_active (set_selection_active (init 0 1920 1080) true)
    /\ existsb is_mouse_down tr = false
    /\ existsb is_mouse_up tr = false.
Proof.
  apply (selection_kept_without_two_hands
           (set_selection_active (init 0 1920 1080) true) [pointing] 0).
  simpl. lia.
Defined.

(** X10.  A frame with no hand, or with three or more, issues no command
    and changes neither the click time, the selection nor the status
    message; the mode message reads "No hands detected". *)
Theorem no_command_without_one_or_two_hands (self : App) (hands : list Hand)
    (now : Q) :
  List.length hands <> 1%nat ->
  List.length hands <> 2%nat ->
  exists self',
    process_frame self hands now = Some (self', [])
    /\ same_session self self'
    /\ status_message self' = status_message self
    /\ mode_message self' = "No hands detected"%string.
Proof.
  intros L1 L2. destruct hands as [|h1 [|h2 [|h3 hands]]].
  - eexists. repeat split.
  - now contradiction L1.
  - now contradiction L2.
  - unfold process_frame.
    destruct (for_each_hand_many (h1 :: h2 :: h3 :: hands)
                (h1 :: h2 :: h3 :: hands) now)
      with (self := set_mode_message self "No hands detected")
      as (s' & E & S & M & D); [simpl; lia|].
    rewrite E. exists s'. repeat split; try apply S; assumption.
Qed.

Lemma no_command_without_one_or_two_hands_witness :
  (exists self',
     process_frame (init 0 1920 1080) [] 0 = Some (self', [])
     /\ same_session (init 0 1920 1080) self'
     /\ status_message self' = status_message (init 0 1920 1080)
     /\ mode_message self' = "No hands detected"%string)
  /\ (exists self',
        process_frame (init 0 1920 1080) [open_palm; pointing; fist] 0
        = Some (self', [])
        /\ same_session (init 0 1920 1080) self'
        /\ status_message self' = status_message (init 0 1920 1080)
        /\ mode_message self' = "No hands detected"%string).
Proof.
  split.
  - apply (no_command_without_one_or_two_hands (init 0 1920 1080) [] 0);
      simpl; lia.
  - apply (no_command_without_one_or_two_hands (init 0 1920 1080)
             [open_palm; pointing; fist] 0); simpl; lia.
Defined.

(** ** The main loop *)

(** X11.  While the application is paused and nothing toggles the pause,
    the main loop issues no command, whatever the camera sees, and leaves
    the click time and the selection alone; it is still paused when it
    stops. *)
Theorem paused_loop_is_silent (ticks : list Tick) (self : App) :
  paused self = true ->
  forallb no_toggle ticks = true ->
  exists self',
    main_loop ticks self = Some (self', [])
    /\ same_session self self'
    /\ paused self' = true.
Proof.
  revert self. induction ticks as [|t ticks IH]; intros self P N; simpl.
  - exists self. repeat split. exact P.
  - simpl in N. apply andb_prop in N as [Nt N]. unfold no_toggle in Nt.
    set (s0 := match tray t with
               | Some i => tray_callback self i
               | None => self
               end).
    assert (S0 : same_session self s0 /\ paused s0 = true).
    { subst s0. destruct (tray t) as [[| |]|]; try discriminate Nt;
        (split; [repeat split|exact P]). }
    assert (K : Z.eqb (Z.land (key t) 255) ord_p = false).
    { destruct (tray t) as [[| |]|]; try discriminate Nt;
        now apply negb_true_iff in Nt. }
    clearbody s0. destruct S0 as [S0 P0]. rewrite K, P0.
    destruct (running s0 && cam_opened t); [|now exists s0].
    destruct (Z.eqb (Z.land (key t) 255) ord_q); [now exists s0|].
    destruct (IH s0 P0 N) as (s' & E & S & P').
    exists s'. split; [exact E|]. split; [|exact P'].
    now apply same_session_trans with s0.
Qed.

Lemma paused_loop_is_silent_witness :
  exists self',
    main_loop [frame_tick ([open_palm], 1); frame_tick ([open_palm; pointing], 2)]
      (set_paused (set_running (init 0 1920 1080) true) true)
    = Some (self', [])
    /\ same_session (set_paused (set_running (init 0 1920 1080) true) true) self'
    /\ paused self' = true.
Proof.
  apply (paused_loop_is_silent
           [frame_tick ([open_palm], 1); frame_tick ([open_palm; pointing], 2)]
           (set_paused (set_running (init 0 1920 1080) true) true));
    reflexivity.
Defined.

(** X12.  Iterations whose camera read fails issue no command and leave
    the click time and the selection alone: a failed read is skipped. *)
Theorem failed_reads_are_silent (ticks : list Tick) (self : App) :
  forallb (fun t => match capture t with None => true | Some _ => false end)
    ticks = true ->
  exists self',
    main_loop ticks self = Some (self', []) /\ same_session self self'.
Proof.
  revert self. induction ticks as [|t ticks IH]; intros self N; simpl.
  - exists self. repeat split.
  - simpl in N. apply andb_prop in N as [Nt N].
    set (s0 := match tray t with
               | Some i => tray_callback self i
               | None => self
               end).
    assert (S0 : same_session self s0) by apply same_session_tray.
    set (s1 := if Z.eqb (Z.land (key t) 255) ord_p
               then toggle_pause s0 else s0).
    assert (S1 : same_session self s1).
    { apply same_session_trans with s0; [exact S0|]. subst s1.
      destruct (Z.eqb _ ord_p);
        [apply same_session_toggle_pause|apply same_session_refl]. }
    clearbody s1 s0.
    destruct (running s0 && cam_opened t); [|now exists s0].
    destruct (Z.eqb (Z.land (key t) 255) ord_q); [now exists s0|].
    destruct (capture t); [discriminate Nt|].
    destruct (IH s1 N) as (s' & E & S).
    destruct (paused s1); exists s'; (split; [exact E|]);
      now apply same_session_trans with s1.
Qed.

Lemma failed_reads_are_silent_witness :
  exists self',
    main_loop [mkTick None true (-1) None 1; mkTick None true (-1) None 2]
      (set_running (init 0 1920 1080) true)
    = Some (self', [])
    /\ same_session (set_running (init 0 1920 1080) true) self'.
Proof.
  apply (failed_reads_are_silent
           [mkTick None true (-1) None 1; mkTick None true (-1) None 2]
           (set_running (init 0 1920 1080) true)).
  reflexivity.
Defined.

(** X13.  The quit key (key code 113 in the low byte) and the tray's Exit
    item end the run in the iteration that sees them, before any frame is
    read and also while paused; the inputs after it are not looked at.
    [start] then releases the mouse button exactly once if a selection
    was active and issues nothing otherwise. *)
Theorem quit_releases_selection (self : App) (t : Tick) (ticks : list Tick) :
  (tray t = None -> cam_opened t = true -> Z.land (key t) 255 = 113%Z ->
   exists self',
     start self (t :: ticks)
     = Some (self', if selection_active self then [MouseUp] else [])
     /\ selection_active self' = false
     /\ running self' = true)
  /\ (tray t = Some Exit ->
      exists self',
        start self (t :: ticks)
        = Some (self', if selection_active self then [MouseUp] else [])
        /\ selection_active self' = false
        /\ running self' = false).
Proof.
  split.
  - intros T C K. unfold start. simpl. rewrite T, C, K. simpl.
    unfold cleanup. simpl.
    destruct (selection_active self) eqn:S; eexists;
      (split; [reflexivity|]); split; trivial.
  - intros T. unfold start. simpl. rewrite T. simpl.
    unfold cleanup. simpl.
    destruct (selection_active self) eqn:S; eexists;
      (split; [reflexivity|]); split; trivial.
Qed.

Lemma quit_releases_selection_witness :
  (exists self',
     start (set_selection_active (init 0 1920 1080) true)
       [mkTick None true 113 (Some [open_palm]) 1;
        frame_tick ([open_palm], 2)]
     = Some (self', [MouseUp])
     /\ selection_active self' = false
     /\ running self' = true)
  /\ (exists self',
        start (set_selection_active (init 0 1920 1080) true)
          [mkTick (Some Exit) true (-1) (Some [open_palm]) 1;
           frame_tick ([open_palm], 2)]
        = Some (self', [MouseUp])
        /\ selection_active self' = false
        /\ running self' = false).
Proof.
  split.
  - apply (quit_releases_selection
             (set_selection_active (init 0 1920 1080) true)
             (mkTick None true 113 (Some [open_palm]) 1)
             [frame_tick ([open_palm], 2)]); reflexivity.
  - apply (quit_releases_selection
             (set_selection_active (init 0 1920 1080) true)
             (mkTick (Some Exit) true (-1) (Some [open_palm]) 1)
             [frame_tick ([open_palm], 2)]); reflexivity.
Defined.

Lemma for_each_hand_flags (multi rest : list Hand) (now : Q)
    (self self' : App) (tr : list Action) :
  for_each_hand multi rest now self = Some (self', tr) ->
  running self' = running self /\ paused self' = paused self.
Proof.
  revert self self' tr.
  induction rest as [|h rest IH]; intros self self' tr; simpl.
  - intro H. injection H as <- <-. now split.
  - destruct (Nat.eqb (List.length multi) 1).
    + destruct (process_single_hand _ now) as [[s1 t1]|] eqn:E;
        [|discriminate].
      destruct (for_each_hand multi rest now s1) as [[s2 t2]|] eqn:E2;
        [|discriminate].
      intro H. injection H as <- <-.
      destruct (single_hand_writes _ _ _ _ E) as (t & m & ->).
      exact (IH _ _ _ E2).
    + destruct (Nat.eqb (List.length multi) 2).
      * destruct (process_two_hands _ multi) as [[s1 t1]|] eqn:E;
          [|discriminate].
        destruct (for_each_hand multi rest now s1) as [[s2 t2]|] eqn:E2;
          [|discriminate].
        intro H. injection H as <- <-.
        destruct (two_hands_writes _ _ _ _ E) as (b & m & ->).
        exact (IH _ _ _ E2).
      * destruct (for_each_hand multi rest now _) as [[s2 t2]|] eqn:E2;
          [|discriminate].
        intro H. injection H as <- <-.
        exact (IH _ _ _ E2).
Qed.

Lemma process_frame_flags (self self' : App) (hands : list Hand) (now : Q)
    (tr : list Action) :
  process_frame self hands now = Some (self', tr) ->
  running self' = running self /\ paused self' = paused self.
Proof.
  unfold process_frame. destruct hands as [|h hands].
  - intro H. injection H as <- <-. now split.
  - intro H. apply for_each_hand_flags in H. exact H.
Qed.

(** X14.  When the application runs unpaused and every iteration has the
    camera open, no key and no tray item, and a successful read, the main
    loop processes the frames in order: its commands are those of the
    frames one after the other, and it ends in the state the last frame
    leaves. *)
Theorem main_loop_processes_frames (frames : list Frame) (self : App) :
  running self = true ->
  paused self = false ->
  exists self' trs,
    run_frames self frames = Some (self', trs)
    /\ main_loop (map frame_tick frames) self = Some (self', List.concat trs).
Proof.
  revert self.
  induction frames as [|[hands now] frames IH]; intros self R P.
  - now exists self, [].
  - cbn [run_frames map main_loop frame_tick tray cam_opened key capture
             clock fst snd].
    rewrite R. cbn [andb].
    change (Z.eqb (Z.land (-1) 255) ord_q) with false.
    change (Z.eqb (Z.land (-1) 255) ord_p) with false.
    cbv iota. rewrite P.
    destruct (process_frame_total self hands now) as (s1 & t1 & E).
    rewrite E. destruct (process_frame_flags _ _ _ _ _ E) as [R1 P1].
    destruct (IH s1) as (s2 & trs & E2 & M); [congruence|congruence|].
    rewrite E2, M. now exists s2, (t1 :: trs).
Qed.

Lemma main_loop_processes_frames_witness :
  exists self' trs,
    run_frames (set_running (init 0 1920 1080) true)
      [([open_palm], 1); ([pointing], 2)] = Some (self', trs)
    /\ main_loop (map frame_tick [([open_palm], 1); ([pointing], 2)])
         (set_running (init 0 1920 1080) true)
       = Some (self', List.concat trs).
Proof.
  apply (main_loop_processes_frames [([open_palm], 1); ([pointing], 2)]
           (set_running (init 0 1920 1080) true)); reflexivity.
Defined.

(** X15.  Toggling the pause twice gives back the object as it was
    except for the status message, which is the one of the state the
    object is back in. *)
Theorem toggle_pause_twice (self : App) :
  toggle_pause (toggle_pause self)
  = set_status_message self
      (if paused self then "PAUSED - Press P to resume"
       else "Gesture Control Active").
Proof.
  destruct self as [r p l w h s m a st at']. destruct p; reflexivity.
Qed.

(** ** Screen coordinates *)

Lemma int_of_unit_scale (q : Q) (n : Z) :
  0 <= q -> q <= 1 -> (0 <= n)%Z ->
  (0 <= int_of (q * inject_Z n) <= n)%Z.
Proof.
  intros L U N.
  assert (W := inject_Z_nonneg n N).
  assert (P : 0 <= q * inject_Z n) by now apply Qmult_le_0_compat.
  assert (B : q * inject_Z n <= inject_Z n).
  { rewrite <- (Qmult_1_l (inject_Z n)) at 2.
    now apply Qmult_le_compat_r. }
  rewrite (int_of_floor _ P). split.
  - change 0%Z with (Qfloor (inject_Z 0)). now apply Qfloor_resp_le.
  - rewrite <- (Qfloor_Z n) at 2. now apply Qfloor_resp_le.
Qed.

(** X16.  A landmark inside the frame is mapped inside the screen:
    [0 <= int(x * width) <= width] and [0 <= int(y * height) <= height]
    (the right and bottom edges themselves are reached at x = 1, y = 1). *)
Theorem to_screen_in_bounds (self : App) (p : Landmark) :
  in_frame p ->
  (0 <= screen_width self)%Z ->
  (0 <= screen_height self)%Z ->
  (0 <= fst (to_screen self p) <= screen_width self)%Z
  /\ (0 <= snd (to_screen self p) <= screen_height self)%Z.
Proof.
  intros (X0 & X1 & Y0 & Y1) W H. unfold to_screen. simpl.
  split; now apply int_of_unit_scale.
Qed.

Lemma to_screen_in_bounds_witness :
  (0 <= fst (to_screen (init 0 1920 1080) (mkLandmark 1 (5 # 10) 0)) <= 1920)%Z
  /\ (0 <= snd (to_screen (init 0 1920 1080) (mkLandmark 1 (5 # 10) 0))
      <= 1080)%Z.
Proof.
  apply (to_screen_in_bounds (init 0 1920 1080) (mkLandmark 1 (5 # 10) 0)).
  - unfold in_frame, Qle; simpl; lia.
  - simpl; lia.
  - simpl; lia.
Defined.

(** X17.  The cursor move of the index-only pattern, for an index tip
    inside the frame and a screen height whose sum with 30 needs no more
    than 53 bits, goes to a column between 0 and the screen width and to a
    row between 30 and the screen height plus 30: the 30-pixel offset is
    not clipped, so the target can lie up to 30 pixels below the screen. *)
Theorem move_target_bounds (self : App) (h : Hand) (now : Q) :
  only_index (hand_attrs h) = true ->
  in_frame (h INDEX_FINGER_TIP) ->
  (0 <= screen_width self)%Z ->
  (0 <= screen_height self)%Z ->
  (screen_height self + 30 <= 2 ^ 53)%Z ->
  exists self' px py,
    process_frame self [h] now = Some (self', [MoveToEased px py])
    /\ (0 <= px <= screen_width self)%Z
    /\ (30 <= py <= screen_height self + 30)%Z.
Proof.
  intros O (X0 & X1 & Y0 & Y1) W H B.
  rewrite process_frame_one_hand.
  rewrite (single_only_index
             (entering (set_mode_message self "No hands detected") h "One hand")
             (hand_attrs h) now eq_refl O).
  eexists _, _, _. split; [reflexivity|].
  change (screen_width (entering _ h _)) with (screen_width self).
  change (screen_height (entering _ h _)) with (screen_height self).
  change (index_tip (hand_attrs h)) with (h INDEX_FINGER_TIP).
  split; [now apply int_of_unit_scale|].
  assert (HQ := inject_Z_nonneg _ H).
  set (v := y (h INDEX_FINGER_TIP) * inject_Z (screen_height self) + 30).
  assert (P : 0 <= y (h INDEX_FINGER_TIP) * inject_Z (screen_height self))
    by now apply Qmult_le_0_compat.
  assert (U : y (h INDEX_FINGER_TIP) * inject_Z (screen_height self)
              <= inject_Z (screen_height self)).
  { rewrite <- (Qmult_1_l (inject_Z (screen_height self))) at 2.
    now apply Qmult_le_compat_r. }
  assert (V0 : 0 < v) by (subst v; lra).
  assert (L30 : inject_Z 30 <= v).
  { subst v. change (inject_Z 30) with (30 # 1). lra. }
  assert (UH : v <= inject_Z (screen_height self + 30)).
  { subst v. rewrite inject_Z_plus. change (inject_Z 30) with (30 # 1). lra. }
  assert (G := binary64_ge_int v 30 V0 L30 ltac:(lia)).
  assert (L := binary64_le_int v (screen_height self + 30) V0 UH B).
  rewrite int_of_floor.
  - split.
    + rewrite <- (Qfloor_Z 30). now apply Qfloor_resp_le.
    + rewrite <- (Qfloor_Z (screen_height self + 30)).
      now apply Qfloor_resp_le.
  - apply Qle_trans with (inject_Z 30); [|exact G]. now apply inject_Z_nonneg.
Qed.

(** An index tip on the bottom right corner of a 1920 x 1080 screen: the
    cursor is sent to row 1110. *)
Lemma move_target_bounds_witness :
  exists self' px py,
    process_frame (init 0 1920 1080) [corner_pointing] 0
    = Some (self', [MoveToEased px py])
    /\ (0 <= px <= 1920)%Z
    /\ (30 <= py <= 1080 + 30)%Z
    /\ px = 1920%Z
    /\ py = 1110%Z.
Proof.
  destruct (move_target_bounds (init 0 1920 1080) corner_pointing 0)
    as (s & px & py & E & Bx & By).
  - reflexivity.
  - unfold in_frame, Qle; simpl; lia.
  - simpl; lia.
  - simpl; lia.
  - simpl; lia.
  - exists s, px, py. split; [exact E|]. split; [exact Bx|].
    split; [exact By|].
    vm_compute in E. injection E as _ Ex Ey. now split.
Defined.

(** X18.  [int] rounds toward zero: it is the floor of a number that is
    not negative and the ceiling of one that is not positive, it commutes
    with negation, and it gives back an integer as it is. *)
Theorem int_of_rounds_toward_zero (q : Q) :
  (0 <= q -> int_of q = Qfloor q)
  /\ (q <= 0 -> int_of q = Qceiling q)
  /\ int_of (- q) = (- int_of q)%Z
  /\ (forall n : Z, int_of (inject_Z n) = n).
Proof.
  split; [apply int_of_floor|].
  assert (N : int_of (- q) = (- int_of q)%Z).
  { destruct q as [n d]. unfold int_of. simpl. apply Z.quot_opp_l. lia. }
  split; [|split; [exact N|]].
  - intro L. unfold Qceiling.
    rewrite <- (int_of_floor (- q)) by lra. rewrite N. lia.
  - intro n. unfold int_of. simpl. apply Z.quot_1_r.
Qed.

Lemma int_of_rounds_toward_zero_witness :
  int_of (3 # 2) = 1%Z /\ int_of (- (3 # 2)) = (-1)%Z
  /\ Qfloor (- (3 # 2)) = (-2)%Z.
Proof.
  split; [|split].
  - apply (proj1 (int_of_rounds_toward_zero (3 # 2))).
    unfold Qle; simpl; lia.
  - apply (proj1 (proj2 (int_of_rounds_toward_zero (- (3 # 2))))).
    unfold Qle; simpl; lia.
  - reflexivity.
Defined.

(** ** The pinch *)




(** ** A selection from start to end *)

Lemma frame_drag (self : App) (h1 h2 : Hand) (now : Q) :
  qualifying_pose [h1; h2] = true ->
  exists self' tr,
    process_frame self [h1; h2] now = Some (self', tr)
    /\ selection_active self' = true
    /\ count is_mouse_down tr = (if selection_active self then 0 else 1)%nat
    /\ count is_mouse_up tr = 0%nat.
Proof.
  intro P. simpl in P. rewrite process_frame_two_hands.
  pose proof (two_hands_drag
                (entering (set_mode_message self "No hands detected") h1
                   "Two hands") h1 h2 P) as E1.
  change (selection_active
            (entering (set_mode_message self "No hands detected") h1
               "Two hands"))
    with (selection_active self) in E1.
  destruct (selection_active self) eqn:S; rewrite E1; clear E1.
  - match goal with
    | |- context [process_two_hands ?s [h1; h2]] =>
      pose proof (two_hands_drag s h1 h2 P) as E2;
        change (selection_active s) with (selection_active self) in E2;
        rewrite S in E2; rewrite E2
    end.
    eexists _, _. split; [reflexivity|]. split; [exact S|]. now split.
  - match goal with
    | |- context [process_two_hands ?s [h1; h2]] =>
      pose proof (two_hands_drag s h1 h2 P) as E2;
        change (selection_active s) with true in E2; rewrite E2
    end.
    eexists _, _. split; [reflexivity|]. now repeat split.
Qed.

Lemma two_hands_idle_down (self self' : App) (h1 h2 : Hand)
    (tr : list Action) :
  hand1_all_extended h1 && hand2_index_only h2 = false ->
  process_two_hands self [h1; h2] = Some (self', tr) ->
  count is_mouse_down tr = 0%nat.
Proof.
  intros P. unfold process_two_hands. rewrite P.
  intro H. injection H as H.
  case_ifs H; injection H as _ <-; reflexivity.
Qed.

Lemma frame_release (self : App) (h1 h2 : Hand) (now : Q) :
  selection_active self = true ->
  qualifying_pose [h1; h2] = false ->
  exists self' tr,
    process_frame self [h1; h2] now = Some (self', tr)
    /\ selection_active self' = false
    /\ count is_mouse_down tr = 0%nat
    /\ count is_mouse_up tr = 1%nat.
Proof.
  intros S P. simpl in P. rewrite process_frame_two_hands.
  rewrite (two_hands_release
             (entering (set_mode_message self "No hands detected") h1
                "Two hands") h1 h2 S P).
  match goal with
  | |- context [process_two_hands ?s [h1; h2]] =>
    destruct (process_two_hands_total s h1 h2) as (s2 & t2 & E);
      rewrite E;
      pose proof (two_hands_idle_down _ _ _ _ _ P E) as D;
      apply two_hands_idle in E; [|reflexivity|exact P]
  end.
  destruct E as [S2 U]. exists s2, ([MouseUp] ++ t2 ++ []).
  split; [reflexivity|]. split; [exact S2|].
  rewrite !count_app, D, U. now split.
Qed.

(** X20.  A selection from start to end: from a state with no selection,
    a two-hand frame showing the qualifying pose followed by a two-hand
    frame not showing it issues exactly one mouse-down and, after it,
    exactly one mouse-up; the selection is active in between and inactive
    at the end. *)
Theorem selection_round_trip (self : App) (h1 h2 k1 k2 : Hand) (t t' : Q) :
  selection_active self = false ->
  qualifying_pose [h1; h2] = true ->
  qualifying_pose [k1; k2] = false ->
  exists self1 tr1 self2 tr2,
    process_frame self [h1; h2] t = Some (self1, tr1)
    /\ process_frame self1 [k1; k2] t' = Some (self2, tr2)
    /\ selection_active self1 = true
    /\ selection_active self2 = false
    /\ count is_mouse_down tr1 = 1%nat /\ count is_mouse_up tr1 = 0%nat
    /\ count is_mouse_down tr2 = 0%nat /\ count is_mouse_up tr2 = 1%nat.
Proof.
  intros S P N.
  destruct (frame_drag self h1 h2 t P) as (s1 & t1 & E1 & A1 & D1 & U1).
  rewrite S in D1.
  destruct (frame_release s1 k1 k2 t' A1 N) as (s2 & t2 & E2 & A2 & D2 & U2).
  exists s1, t1, s2, t2. now repeat split.
Qed.

Lemma selection_round_trip_witness :
  exists self1 tr1 self2 tr2,
    process_frame (init 0 1920 1080) [open_palm; pointing] 0
    = Some (self1, tr1)
    /\ process_frame self1 [open_palm; fist] 1 = Some (self2, tr2)
    /\ selection_active self1 = true
    /\ selection_active self2 = false
    /\ count is_mouse_down tr1 = 1%nat /\ count is_mouse_up tr1 = 0%nat
    /\ count is_mouse_down tr2 = 0%nat /\ count is_mouse_up tr2 = 1%nat.
Proof.
  apply (selection_round_trip (init 0 1920 1080) open_palm pointing
           open_palm fist 0 1); reflexivity.
Defined.

(** X21.  The order of the two hands matters: when the pair (open hand,
    pointing hand) is the qualifying pose, the same two hands in the other
    order are not, so a frame in which the detector lists the hands the
    other way round ends an active selection with one mouse-up. *)
Theorem hand_order_matters (self : App) (h1 h2 : Hand) (now : Q) :
  qualifying_pose [h1; h2] = true ->
  qualifying_pose [h2; h1] = false
  /\ (selection_active self = true ->
      exists self' tr,
        process_frame self [h2; h1] now = Some (self', tr)
        /\ selection_active self' = false
        /\ count is_mouse_up tr = 1%nat).
Proof.
  intro P.
  assert (N : qualifying_pose [h2; h1] = false).
  { simpl in *. apply andb_prop in P as [_ I].
    unfold hand2_index_only in I.
    apply andb_prop in I as [I _]. apply andb_prop in I as [I _].
    apply andb_prop in I as [_ M].
    unfold hand1_all_extended. simpl forallb.
    rewrite (Qltb_asym _ _ M). now rewrite !andb_false_r. }
  split; [exact N|]. intro S.
  destruct (frame_release self h2 h1 now S N) as (s & tr & E & A & _ & U).
  now exists s, tr.
Qed.

Lemma hand_order_matters_witness :
  qualifying_pose [pointing; open_palm] = false
  /\ exists self' tr,
       process_frame (set_selection_active (init 0 1920 1080) true)
         [pointing; open_palm] 0 = Some (self', tr)
       /\ selection_active self' = false
       /\ count is_mouse_up tr = 1%nat.
Proof.
  destruct (hand_order_matters (set_selection_active (init 0 1920 1080) true)
              open_palm pointing 0 eq_refl) as [N R].
  split; [exact N|]. apply R. reflexivity.
Defined.

(** ** The click time over a run *)

(** X22.  Over every run of [start] the click time never goes back, and
    it is changed only by a run that issues a click. *)
Theorem click_time_over_a_run (self : App) (ticks : list Tick) :
  exists self' tr,
    start self ticks = Some (self', tr)
    /\ last_click_time self <= last_click_time self'
    /\ (last_click_time self' = last_click_time self
        \/ existsb is_click tr = true).
Proof.
  pose (I := fun (s s' : App) (tr : list Action) =>
               last_click_time s <= last_click_time s'
               /\ (last_click_time s' = last_click_time s
                   \/ existsb is_click tr = true)).
  assert (step : forall now s s' tr, click_step now s s' tr -> I s s' tr).
  { intros now s s' tr C. split; [exact (click_step_mono _ _ _ _ C)|].
    destruct (existsb is_click tr) eqn:E; [now right|left].
    exact (proj2 C E). }
  apply (start_inv I).
  - intros s s' (L & _). split; [rewrite L; apply Qle_refl|now left].
  - intros s1 s2 s3 t1 t2 [L1 C1] [L2 C2]. split.
    + now apply Qle_trans with (last_click_time s2).
    + rewrite existsb_app.
      destruct C1 as [C1|C1]; [|rewrite C1; now right].
      destruct C2 as [C2|C2]; [left; congruence|].
      right. rewrite C2. apply orb_true_r.
  - intros s s' now tr P. apply (step now). now apply single_hand_clicks.
  - intros s s' multi tr P. apply (step 0).
    now apply (two_hands_clicks _ _ _ 0) in P.
  - intro s. unfold cleanup.
    destruct (selection_active s); (split; [apply Qle_refl|now left]).
Qed.

(** ** A finger level with its joint *)

(** X23.  The two-hand resolver asks a flexed finger of the second hand to
    have its tip strictly below the joint.  A second hand on which the
    middle, ring or little tip is exactly level with its joint therefore
    shows neither the pointing pose nor the peace sign, and with no
    selection active the resolver does nothing at all, whatever the first
    hand shows. *)
Theorem level_finger_matches_no_pose (self : App) (h1 h2 : Hand) :
  y (h2 MIDDLE_FINGER_TIP) == y (h2 MIDDLE_FINGER_PIP)
  \/ y (h2 RING_FINGER_TIP) == y (h2 RING_FINGER_PIP)
  \/ y (h2 PINKY_TIP) == y (h2 PINKY_PIP) ->
  hand2_index_only h2 = false
  /\ hand2_index_middle h2 = false
  /\ (selection_active self = false ->
      process_two_hands self [h1; h2] = Some (self, [])).
Proof.
  intro L.
  assert (lvl : forall a b : Q, a == b -> Qltb a b = false /\ Qltb b a = false).
  { intros a b E. split; apply Qltb_ge; rewrite E; apply Qle_refl. }
  assert (O : hand2_index_only h2 = false /\ hand2_index_middle h2 = false).
  { unfold hand2_index_only, hand2_index_middle.
    destruct L as [E|[E|E]]; destruct (lvl _ _ E) as [A B];
      rewrite ?A, ?B, ?andb_false_r; now split. }
  destruct O as [O M]. split; [exact O|]. split; [exact M|].
  intro S. unfold process_two_hands.
  now rewrite O, M, S, !andb_false_r.
Qed.

Lemma level_finger_matches_no_pose_witness :
  hand2_index_only
    (sample_hand (5 # 10) (6 # 10) (5 # 10) (6 # 10) false true false false
       false) = false
  /\ hand2_index_middle
       (sample_hand (5 # 10) (6 # 10) (5 # 10) (6 # 10) false true false false
          false) = false
  /\ process_two_hands (init 0 1920 1080)
       [open_palm;
        sample_hand (5 # 10) (6 # 10) (5 # 10) (6 # 10) false true false false
          false]
     = Some (init 0 1920 1080, []).
Proof.
  destruct (level_finger_matches_no_pose (init 0 1920 1080) open_palm
              (sample_hand (5 # 10) (6 # 10) (5 # 10) (6 # 10) false true false
                 false false)) as (O & M & N).
  - left. reflexivity.
  - split; [exact O|]. split; [exact M|]. apply N. reflexivity.
Defined.
